(** * Wastewater no-swim zones: a shallow embedding of [src/main.py]

    The Cloud Function [check_for_changes] fetches the list of wastewater
    treatment plants, gates recomputation on a SHA-256 digest of the
    payload, buffers every discharge point by 200 m, subtracts the unified
    region (land) geometry, publishes the resulting FeatureCollection to
    GCS, and finally converts it to KML and uploads it to Google Drive.

    Python values are modelled by [pyval]; the geometry library (shapely,
    pyproj) is an abstract interface [Shapely] whose fallible calls return
    [option] ([None] = the call raises). *)

From Stdlib Require Import String Ascii List ZArith Bool Lia.
Import ListNotations.
Open Scope string_scope.
Set Warnings "-register-all".

(** ** Python values *)

(** JSON-like Python values.  Numbers are kept as [Z] (the claims never
    inspect numeric values beyond passing them through). *)
Inductive pyval : Type :=
| PNone
| PBool (b : bool)
| PNum (z : Z)
| PStr (s : string)
| PList (l : list pyval)
| PDict (d : list (string * pyval)).

(** [dict.get(k, default)] on the association list of a dict. *)
Fixpoint dget (d : list (string * pyval)) (k : string) (default : pyval) : pyval :=
  match d with
  | [] => default
  | (k', v) :: d' => if String.eqb k k' then v else dget d' k default
  end.

(** [x.get(k, default)]: only a dict has [.get]; anything else raises
    [AttributeError]. *)
Definition py_get (x : pyval) (k : string) (default : pyval) : option pyval :=
  match x with
  | PDict d => Some (dget d k default)
  | _ => None
  end.

(** Python truthiness ([if x:]). *)
Definition truthy (x : pyval) : bool :=
  match x with
  | PNone => false
  | PBool b => b
  | PNum z => negb (Z.eqb z 0)
  | PStr s => negb (String.eqb s "")
  | PList l => match l with [] => false | _ => true end
  | PDict d => match d with [] => false | _ => true end
  end.

Definition is_None (x : pyval) : bool :=
  match x with PNone => true | _ => false end.

(** [x is False]. *)
Definition is_False (x : pyval) : bool :=
  match x with PBool false => true | _ => false end.

(** Iteration [for y in x]: lists yield their items, strings their
    characters, dicts their keys; other values raise [TypeError]. *)
Definition py_iter (x : pyval) : option (list pyval) :=
  match x with
  | PList l => Some l
  | PStr s => Some (map (fun c => PStr (String c EmptyString)) (list_ascii_of_string s))
  | PDict d => Some (map (fun kv => PStr (fst kv)) d)
  | _ => None
  end.

(** Subscript [x[i]] with a non-negative integer index; out of range,
    or on a dict without that key, it raises. *)
Definition py_index (x : pyval) (i : nat) : option pyval :=
  match x with
  | PList l => nth_error l i
  | PStr s => option_map (fun c => PStr (String c EmptyString)) (get i s)
  | _ => None
  end.

(** Decimal rendering of a natural number. *)
Fixpoint digits_rev (fuel n : nat) : list ascii :=
  match fuel with
  | O => []
  | S fuel' =>
      let d := Ascii.ascii_of_nat (48 + Nat.modulo n 10) in
      if Nat.ltb n 10 then [d] else d :: digits_rev fuel' (Nat.div n 10)
  end.

Definition nat_to_string (n : nat) : string :=
  string_of_list_ascii (rev (digits_rev (S n) n)).

Definition Z_to_string (z : Z) : string :=
  match z with
  | Zneg p => "-" ++ nat_to_string (Pos.to_nat p)
  | _ => nat_to_string (Z.to_nat z)
  end.

(** [str(x)] as used by the f-strings of the source ([repr] for the items
    of containers, without escaping). *)
Fixpoint py_repr (x : pyval) : string :=
  match x with
  | PNone => "None"
  | PBool true => "True"
  | PBool false => "False"
  | PNum z => Z_to_string z
  | PStr s => "'" ++ s ++ "'"
  | PList l => "[" ++ String.concat ", " (map py_repr l) ++ "]"
  | PDict d =>
      "{" ++ String.concat ", "
               (map (fun kv => "'" ++ fst kv ++ "': " ++ py_repr (snd kv)) d) ++ "}"
  end.

Definition py_str (x : pyval) : string :=
  match x with
  | PStr s => s
  | _ => py_repr x
  end.

(** ** The geometry library (shapely / pyproj)

    Every call that can raise returns [option].  [covers g c] is
    boundary-inclusive point membership, [interior g c] membership of the
    topological interior. *)
Class Shapely := {
  geom : Type;
  coord : Type;
  wkt_loads : string -> option geom;                 (* shapely.wkt.loads *)
  Point : pyval -> pyval -> option geom;              (* Point(lon, lat) *)
  is_empty : geom -> bool;                            (* g.is_empty *)
  to_greek_grid : geom -> option geom;                (* transform(transformer_to_greek_grid, g) *)
  to_wgs84 : geom -> option geom;                     (* transform(transformer_to_wgs84, g) *)
  buffer : geom -> Z -> option geom;                  (* g.buffer(d) *)
  difference : geom -> geom -> option geom;           (* a.difference(b) *)
  cascaded_union : list geom -> option geom;          (* shapely.ops.cascaded_union *)
  mapping : geom -> pyval;                            (* shapely.geometry.mapping *)
  covers : geom -> coord -> bool;
  interior : geom -> coord -> bool
}.

Definition BUFFER_DISTANCE_METERS : Z := 200.

(** ** [calculate_new_zones] (main.py, lines 70-160) *)

Section Zones.
Context {S : Shapely}.

(** The outcome of one iteration of the per-plant loop: an exception caught
    by the loop's [except Exception] (line 155), a [continue] (line 126) or
    a plant whose difference is empty, or an appended feature. *)
Inductive step : Type :=
| SExc
| SSkip
| SEmit (feature : pyval).

(** Discharge point resolution (lines 108-122): the WKT field when truthy
    and parsable, else [Point(longitude, latitude)] when both are not
    [None].  [RExc]: [Point(...)] raised (outside the inner try). *)
Inductive resolution : Type :=
| RPoint (g : geom)
| RNone
| RExc.

(** [point_wgs84] after the WKT attempt (lines 112-119). *)
Definition wkt_point (props : list (string * pyval)) : option geom :=
  let receiver_location_wkt := dget props "receiverLocation" PNone in
  if truthy receiver_location_wkt then
    match receiver_location_wkt with
    | PStr s => wkt_loads s          (* a failure is caught: stays None *)
    | _ => None                      (* wkt.loads on a non-string raises, caught *)
    end
  else None.

Definition resolve_discharge (props : list (string * pyval)) : resolution :=
  let longitude := dget props "longitude" PNone in
  let latitude := dget props "latitude" PNone in
  match wkt_point props with
  | Some g => RPoint g
  | None =>
      if negb (is_None longitude) && negb (is_None latitude) then
        match Point longitude latitude with
        | Some g => RPoint g
        | None => RExc
        end
      else RNone
  end.

Definition plant_metadata (props : list (string * pyval)) : list (string * pyval) :=
  [("code", dget props "code" PNone);
   ("name", dget props "name" PNone);
   ("receiverName", dget props "receiverName" PNone);
   ("receiverNameEn", dget props "receiverNameEn" PNone);
   ("receiverWaterType", dget props "receiverWaterType" PNone);
   ("latitude", dget props "latitude" PNone);
   ("longitude", dget props "longitude" PNone)].

(** The properties of an emitted feature (lines 143-148). *)
Definition kml_properties (props : list (string * pyval)) : list (string * pyval) :=
  let metadata := plant_metadata props in
  [("location", dget metadata "name" (PStr "Unknown Location"));
   ("Column1.compliance", dget props "is_compliant" (PBool true));
   ("details", PStr ("Code: " ++ py_str (dget metadata "code" (PStr "N/A"))
                     ++ ". Receiver: " ++ py_str (dget metadata "receiverName" (PStr "N/A"))))]
  ++ metadata.

Definition zone_feature (dz : geom) (props : list (string * pyval)) : pyval :=
  PDict [("type", PStr "Feature");
         ("geometry", mapping dz);
         ("properties", PDict (kml_properties props))].

(** Steps 2-5 (lines 129-138): reproject, buffer in metres, reproject
    back, subtract the unified regions. *)
Definition danger_zone (unified : geom) (point_wgs84 : geom) : option geom :=
  match to_greek_grid point_wgs84 with
  | None => None
  | Some point_greek_grid =>
    match buffer point_greek_grid BUFFER_DISTANCE_METERS with
    | None => None
    | Some buffered_greek_grid =>
      match to_wgs84 buffered_greek_grid with
      | None => None
      | Some buffered_wgs84 => difference buffered_wgs84 unified
      end
    end
  end.

(** The body of the loop for one [plant_feature] (lines 95-157). *)
Definition process_plant (unified : geom) (plant_feature : pyval) : step :=
  match py_get plant_feature "properties" plant_feature with
  | None => SExc
  | Some (PDict props) =>
      match resolve_discharge props with
      | RExc => SExc
      | RNone => SSkip
      | RPoint point_wgs84 =>
          if is_empty point_wgs84 then SSkip
          else match danger_zone unified point_wgs84 with
               | None => SExc
               | Some dz => if is_empty dz then SSkip else SEmit (zone_feature dz props)
               end
      end
  | Some _ => SExc                      (* props.get on a non-dict raises *)
  end.

Fixpoint process_all (unified : geom) (plants : list pyval) : list pyval :=
  match plants with
  | [] => []
  | p :: ps =>
      match process_plant unified p with
      | SEmit f => f :: process_all unified ps
      | _ => process_all unified ps
      end
  end.

(** Lines 86-92: a dict with a ["features"] key, or a list. *)
Definition features_to_process (wastewater_data : pyval) : option pyval :=
  match wastewater_data with
  | PDict d =>
      if existsb (fun kv => String.eqb (fst kv) "features") d
      then Some (dget d "features" PNone) else None
  | PList _ => Some wastewater_data
  | _ => None
  end.

(** [None]: an exception escapes the function ([cascaded_union], or the
    iteration over a non-iterable ["features"] value). *)
Definition calculate_new_zones (perifereies_geometries : list geom)
    (wastewater_data : pyval) : option (list pyval) :=
  match perifereies_geometries with
  | [] => Some []
  | _ =>
    match cascaded_union perifereies_geometries with
    | None => None
    | Some unified_perifereies =>
      match features_to_process wastewater_data with
      | None => Some []
      | Some fs =>
        match py_iter fs with
        | None => None
        | Some plants => Some (process_all unified_perifereies plants)
        end
      end
    end
  end.

End Zones.

(** ** [geojson_to_kml] (main.py, lines 174-235) *)

(** Option bind: a Python statement that may raise. *)
Notation "x <- m ;; k" := (match m with Some x => k | None => None end)
  (at level 61, m at next level, right associativity).

(** [simplekml.Color] values (aabbggrr hex strings). *)
Definition Color_red : string := "ff0000ff".
Definition Color_blue : string := "ffff0000".
Definition Color_white : string := "ffffffff".
(** [simplekml.Color.changealphaint(150, simplekml.Color.blue)]: alpha 150 = 0x96. *)
Definition Color_blue_alpha150 : string := "96ff0000".

(** The fields substituted into the HTML description f-string (lines 190-198). *)
Record Description : Type := mkDescription {
  d_name : pyval;
  d_code : pyval;
  d_receiver : pyval;
  d_compliance : string;
  d_details : pyval
}.

(** A [kml.newpolygon(...)] placemark with its style.  simplekml keeps the
    inner boundaries in [innerboundaryis], empty unless assigned. *)
Record KmlPolygon : Type := mkKmlPolygon {
  kp_name : pyval;
  kp_description : Description;
  kp_outerboundaryis : list (pyval * pyval);
  kp_innerboundaryis : list (list (pyval * pyval));
  kp_poly_color : string;
  kp_fill : Z;
  kp_outline : Z;
  kp_line_color : string;
  kp_line_width : Z
}.

(** [[(coord[0], coord[1]) for coord in coords]]. *)
Fixpoint coords_pairs (cs : list pyval) : option (list (pyval * pyval)) :=
  match cs with
  | [] => Some []
  | c :: cs' =>
      x <- py_index c 0 ;;
      y <- py_index c 1 ;;
      rest <- coords_pairs cs' ;;
      Some ((x, y) :: rest)
  end.

Definition kml_coords_of (coords : pyval) : option (list (pyval * pyval)) :=
  cs <- py_iter coords ;; coords_pairs cs.

Definition styled_polygon (name : pyval) (description : Description)
    (kml_coords : list (pyval * pyval)) (color : string) : KmlPolygon :=
  {| kp_name := name;
     kp_description := description;
     kp_outerboundaryis := kml_coords;
     kp_innerboundaryis := [];
     kp_poly_color := color;
     kp_fill := 1;
     kp_outline := 1;
     kp_line_color := Color_white;
     kp_line_width := 2 |}.

(** Style selection (lines 201-205). *)
Definition compliance_color (compliance : pyval) : string :=
  if is_False compliance then Color_red else Color_blue_alpha150.

Definition compliance_text (compliance : pyval) : string :=
  if is_False compliance then "⚠️ NON-COMPLIANT" else "✓ Compliant".

(** The MultiPolygon loop [for i, polygon in enumerate(coordinates)]. *)
Fixpoint multipolygon_parts (location : pyval) (description : Description)
    (color : string) (i : nat) (polygons : list pyval) : option (list KmlPolygon) :=
  match polygons with
  | [] => Some []
  | polygon :: rest =>
      coords <- py_index polygon 0 ;;
      kml_coords <- kml_coords_of coords ;;
      pols <- multipolygon_parts location description color (S i) rest ;;
      Some (styled_polygon (PStr (py_str location ++ " Part " ++ nat_to_string (S i)))
                           description kml_coords color :: pols)
  end.

(** The geometry dispatch (lines 208-231): [geom_type == 'Polygon'] holds
    only for that str. *)
Definition geometry_placemarks (geom_type coordinates location : pyval)
    (description : Description) (color : string) : option (list KmlPolygon) :=
  match geom_type with
  | PStr t =>
      if String.eqb t "Polygon" then
        coords <- py_index coordinates 0 ;;
        kml_coords <- kml_coords_of coords ;;
        Some [styled_polygon location description kml_coords color]
      else if String.eqb t "MultiPolygon" then
        polygons <- py_iter coordinates ;;
        multipolygon_parts location description color 0 polygons
      else Some []
  | _ => Some []
  end.

(** The body of the loop for one feature (lines 179-231). *)
Definition feature_placemarks (feature : pyval) : option (list KmlPolygon) :=
  geometry <- py_get feature "geometry" (PDict []) ;;
  properties <- py_get feature "properties" (PDict []) ;;
  geom_type <- py_get geometry "type" PNone ;;
  coordinates <- py_get geometry "coordinates" (PList []) ;;
  location <- py_get properties "location" (PStr "Unknown Location") ;;
  compliance <- py_get properties "Column1.compliance" PNone ;;
  details <- py_get properties "details" (PStr "No details available") ;;
  name <- py_get properties "name" (PStr "N/A") ;;
  code <- py_get properties "code" (PStr "N/A") ;;
  receiver <- py_get properties "receiverName" (PStr "N/A") ;;
  let description := mkDescription name code receiver (compliance_text compliance) details in
  let color := compliance_color compliance in
  geometry_placemarks geom_type coordinates location description color.

Fixpoint features_placemarks (features : list pyval) : option (list KmlPolygon) :=
  match features with
  | [] => Some []
  | f :: fs =>
      pf <- feature_placemarks f ;;
      pfs <- features_placemarks fs ;;
      Some (pf ++ pfs)%list
  end.

(** The KML document, as its list of placemarks; [None]: the conversion raises. *)
Definition geojson_to_kml (geojson_data : pyval) : option (list KmlPolygon) :=
  features <- py_get geojson_data "features" (PList []) ;;
  fs <- py_iter features ;;
  features_placemarks fs.

(** Area semantics of the two encodings, over a ring-membership test
    [in_ring]: a point lies in a polygon when it lies in the outer ring
    and in none of the holes. *)
Definition kml_polygon_covers {C : Type} (in_ring : list (pyval * pyval) -> C -> bool)
    (p : KmlPolygon) (c : C) : bool :=
  in_ring (kp_outerboundaryis p) c
  && forallb (fun h => negb (in_ring h c)) (kp_innerboundaryis p).

Definition geojson_polygon_covers {C : Type} (in_ring : list (pyval * pyval) -> C -> bool)
    (rings : list (list (pyval * pyval))) (c : C) : bool :=
  match rings with
  | [] => false
  | outer :: holes => in_ring outer c && forallb (fun h => negb (in_ring h c)) holes
  end.

(** ** [upload_to_drive] (main.py, lines 237-314)

    Google Drive as a store of files.  Credential and service construction
    (lines 241-247) are external plumbing, taken to succeed; the only
    failure modelled is that of the access-grant call ([grant_ok]). *)

Record DriveFile : Type := mkDriveFile {
  df_id : string;
  df_name : string;
  df_mimeType : string;
  df_parents : list string;
  df_trashed : bool;
  df_content : string
}.

Record Drive : Type := mkDrive {
  dr_files : list DriveFile;
  dr_next_id : nat;
  dr_permissions : list (string * string * string)   (* fileId, type, role *)
}.

Record UploadResult : Type := mkUploadResult {
  ur_file_id : string;
  ur_web_link : string;
  ur_action : string
}.

Definition KML_MIME : string := "application/vnd.google-earth.kml+xml".

(** [if folder_id:] *)
Definition folder_given (folder_id : option string) : option string :=
  match folder_id with
  | Some f => if String.eqb f "" then None else Some f
  | None => None
  end.

(** The key of the query of [files().list] (lines 267-269):
    [name='<filename>' and trashed=false [and '<folder>' in parents]]. *)
Definition matches_key (filename : string) (folder_id : option string) (f : DriveFile) : bool :=
  String.eqb (df_name f) filename && negb (df_trashed f)
  && match folder_given folder_id with
     | Some fo => existsb (String.eqb fo) (df_parents f)
     | None => true
     end.

Definition files_list (dr : Drive) (filename : string) (folder_id : option string)
    : list DriveFile :=
  filter (matches_key filename folder_id) (dr_files dr).

Definition update_content (file_id content : string) (f : DriveFile) : DriveFile :=
  if String.eqb (df_id f) file_id
  then {| df_id := df_id f; df_name := df_name f;
          df_mimeType := df_mimeType f; df_parents := df_parents f;
          df_trashed := df_trashed f; df_content := content |}
  else f.

(** [files().update(fileId, media_body)]: the content of that file is replaced. *)
Definition files_update (dr : Drive) (file_id : string) (content : string) : Drive :=
  {| dr_files := map (update_content file_id content) (dr_files dr);
     dr_next_id := dr_next_id dr;
     dr_permissions := dr_permissions dr |}.

Definition fresh_file_id (dr : Drive) : string := "file" ++ nat_to_string (dr_next_id dr).

(** [files().create(body=file_metadata, media_body)]: a new file. *)
Definition files_create (dr : Drive) (filename : string) (folder_id : option string)
    (content : string) : Drive :=
  {| dr_files := dr_files dr ++
       [{| df_id := fresh_file_id dr; df_name := filename; df_mimeType := KML_MIME;
           df_parents := match folder_given folder_id with Some fo => [fo] | None => [] end;
           df_trashed := false; df_content := content |}];
     dr_next_id := S (dr_next_id dr);
     dr_permissions := dr_permissions dr |}.

(** [permissions().create(fileId, {'type': 'anyone', 'role': 'reader'})]. *)
Definition permissions_create (dr : Drive) (file_id : string) : Drive :=
  {| dr_files := dr_files dr;
     dr_next_id := dr_next_id dr;
     dr_permissions := dr_permissions dr ++ [(file_id, "anyone", "reader")] |}.

(** The result is [None] when the function raises (the [except] re-raises,
    line 314); the Drive state is returned in every case. *)
Definition upload_to_drive (grant_ok : bool) (file_content filename : string)
    (folder_id : option string) (dr : Drive) : option UploadResult * Drive :=
  let existing_files := files_list dr filename folder_id in
  let '(file_id, web_view_link, action, dr1) :=
    match existing_files with
    | f :: _ =>
        (* the update response carries no webViewLink *)
        (df_id f, None, "updated", files_update dr (df_id f) file_content)
    | [] =>
        let id := fresh_file_id dr in
        (id, Some ("https://drive.google.com/file/d/" ++ id ++ "/view?usp=drivesdk"),
         "created", files_create dr filename folder_id file_content)
    end in
  if grant_ok then
    (Some {| ur_file_id := file_id;
             ur_web_link := match web_view_link with
                            | Some l => l
                            | None => "https://drive.google.com/file/d/" ++ file_id ++ "/view"
                            end;
             ur_action := action |},
     permissions_create dr1 file_id)
  else (None, dr1).

(** ** [check_for_changes] (main.py, lines 320-437) *)

Definition DRIVE_FOLDER_ID : string := "122jxF5nlwH8Re3ixoCjf2TuHyNCDuuxD".
Definition KML_FILENAME : string := "wastewater_no_swim_zones.kml".

(** ** Python subscripts and [len] *)

(** [d[k]] with a str key on the items of a dict; [None] is the [KeyError]. *)
Fixpoint dict_getitem (d : list (string * pyval)) (k : string) : option pyval :=
  match d with
  | [] => None
  | (k', v) :: d' => if String.eqb k k' then Some v else dict_getitem d' k
  end.

(** [x[k]] with a str key: a missing key raises [KeyError]; a list, str or
    scalar subscripted by a str raises [TypeError]. *)
Definition py_getitem (x : pyval) (k : string) : option pyval :=
  match x with
  | PDict d => dict_getitem d k
  | _ => None
  end.

(** [len(x)]: items of a list or dict, characters of a str (one per
    character of the model's string); other values raise [TypeError]. *)
Definition py_len (x : pyval) : option nat :=
  match x with
  | PList l => Some (length l)
  | PDict d => Some (length d)
  | PStr s => Some (String.length s)
  | _ => None
  end.

(** [str(e)] of [KeyError(k)]: the repr of the key. *)
Definition key_error_str (k : string) : string := "'" ++ k ++ "'".

(** ** The result of [sync_to_drive_internal] and its use (main.py, lines
    342-349, 380-384 and 429-437) *)

(** The dict returned by [sync_to_drive_internal] (lines 342-349); the
    HTTP function [sync_to_drive] of geojson2kmlGDrive.py answers the same
    dict (lines 229-236). *)
Definition sync_result (feature_count : nat) (drive_result : UploadResult) : pyval :=
  PDict [("success", PBool true);
         ("message", PStr ("Successfully " ++ ur_action drive_result ++ " KML file in Google Drive"));
         ("feature_count", PNum (Z.of_nat feature_count));
         ("drive_file_id", PStr (ur_file_id drive_result));
         ("drive_link", PStr (ur_web_link drive_result));
         ("filename", PStr KML_FILENAME)].

(** The unchanged-payload branch (lines 380-384): [drive_result['action']]
    is read from the dict; [sync_error] is [str(e)] of an exception raised
    inside [sync_to_drive_internal]. *)
Definition unchanged_sync_response (sync_error : string) (drive_result : option pyval) : string * Z :=
  match drive_result with
  | None => ("No data changes. KML Drive sync failed: " ++ sync_error, 500%Z)
  | Some d =>
      match py_getitem d "action" with
      | Some action => ("No data changes. KML Drive sync: " ++ py_str action ++ ".", 200%Z)
      | None => ("No data changes. KML Drive sync failed: " ++ key_error_str "action", 500%Z)
      end
  end.

(** Part 3 of the run (lines 429-437). *)
Definition changed_sync_response (sync_error : string) (drive_result : option pyval) : string * Z :=
  match drive_result with
  | None => ("Analysis complete. GeoJSON saved. KML sync failed: " ++ sync_error, 200%Z)
  | Some d =>
      match py_getitem d "action" with
      | Some action =>
          ("Analysis complete. New GeoJSON saved. KML Drive sync: " ++ py_str action ++ ".", 200%Z)
      | None => ("Analysis complete. GeoJSON saved. KML sync failed: " ++ key_error_str "action", 200%Z)
      end
  end.

(** The persistent state: the hash blob and the output GeoJSON blob in GCS,
    and Google Drive. *)
Record Store : Type := mkStore {
  st_hash : option string;
  st_geojson : option string;
  st_drive : Drive
}.

Definition set_hash (s : Store) (h : string) : Store :=
  {| st_hash := Some h; st_geojson := st_geojson s; st_drive := st_drive s |}.
Definition set_geojson (s : Store) (g : string) : Store :=
  {| st_hash := st_hash s; st_geojson := Some g; st_drive := st_drive s |}.
Definition set_drive (s : Store) (d : Drive) : Store :=
  {| st_hash := st_hash s; st_geojson := st_geojson s; st_drive := d |}.

(** Observable effects of a run, in order: loading the regions, the number
    of features computed, the successful GCS writes, the Drive sync call. *)
Inductive Event : Type :=
| EvLoadRegions
| EvCalculated (n : nat)
| EvPutGeojson
| EvPutHash
| EvSync.

Section Run.
Context {S : Shapely}.

(** The outcomes of the collaborators during one run. *)
Record Env : Type := mkEnv {
  e_fetch : option pyval;              (* requests.get(...).json(); None: RequestException *)
  e_hash_read_ok : bool;               (* hash_blob.exists()/download_as_text() did not raise *)
  e_regions : option (list geom);      (* load_perifereies_data *)
  e_put_geojson_ok : bool;             (* output_blob.upload_from_string *)
  e_put_hash_ok : bool;                (* hash_blob.upload_from_string *)
  e_grant_ok : bool;                   (* permissions().create in upload_to_drive *)
  e_sync_error : string                (* str(e) of an exception raised in sync_to_drive_internal *)
}.

(** [hashlib.sha256(json.dumps(data, sort_keys=True).encode()).hexdigest()],
    [json.dumps], [json.loads] and [kml.kml()]. *)
Variable current_digest : pyval -> string.
Variable json_dumps : pyval -> string.
Variable json_loads : string -> option pyval.
Variable kml_to_string : list KmlPolygon -> string.

(** [sync_to_drive_internal()] (lines 320-349): the returned dict, [None]
    when the function raises, and the new Drive state.  [get_geojson_from_gcs]
    (lines 166-172) is the read of the GeoJSON blob ([None]: the blob does
    not exist) and [json.loads]; [feature_count] is
    [len(geojson_data.get('features', []))] (line 327). *)
Definition sync_to_drive_internal (grant_ok : bool) (s : Store) : option pyval * Drive :=
  match st_geojson s with
  | None => (None, st_drive s)
  | Some txt =>
    match json_loads txt with
    | None => (None, st_drive s)
    | Some geojson_data =>
      match (features <- py_get geojson_data "features" (PList []) ;; py_len features) with
      | None => (None, st_drive s)
      | Some feature_count =>
        match geojson_to_kml geojson_data with
        | None => (None, st_drive s)
        | Some kml =>
          let '(r, dr) := upload_to_drive grant_ok (kml_to_string kml) KML_FILENAME
                                          (Some DRIVE_FOLDER_ID) (st_drive s) in
          (option_map (sync_result feature_count) r, dr)
        end
      end
    end
  end.

Definition feature_collection (features : list pyval) : pyval :=
  PDict [("type", PStr "FeatureCollection"); ("features", PList features)].

(** One invocation: the HTTP response (message, status), the final store and
    the trace.  An exception escaping the function becomes the framework's
    500 response. *)
Definition check_for_changes (env : Env) (s : Store) : (string * Z) * Store * list Event :=
  match e_fetch env with
  | None => (("Failed to fetch data.", 500%Z), s, [])
  | Some wastewater_data =>
    let current_hash := current_digest wastewater_data in
    let unchanged :=
      e_hash_read_ok env
      && match st_hash s with
         | Some last_hash => String.eqb current_hash last_hash
         | None => false
         end in
    if unchanged then
      let '(drive_result, dr) := sync_to_drive_internal (e_grant_ok env) s in
      (unchanged_sync_response (e_sync_error env) drive_result, set_drive s dr, [EvSync])
    else
    match e_regions env with
    | None => (("Failed to load perifereies data.", 500%Z), s, [EvLoadRegions])
    | Some perifereies_geometries =>
      match calculate_new_zones perifereies_geometries wastewater_data with
      | None => (("Internal Server Error", 500%Z), s, [EvLoadRegions])
      | Some [] =>
          if e_put_hash_ok env
          then (("Analysis complete. No zones saved.", 200%Z), set_hash s current_hash,
                [EvLoadRegions; EvCalculated 0; EvPutHash])
          else (("Internal Server Error", 500%Z), s, [EvLoadRegions; EvCalculated 0])
      | Some new_zones_features =>
        let n := length new_zones_features in
        if e_put_geojson_ok env then
          let s1 := set_geojson s (json_dumps (feature_collection new_zones_features)) in
          if e_put_hash_ok env then
            let s2 := set_hash s1 current_hash in
            let '(drive_result, dr) := sync_to_drive_internal (e_grant_ok env) s2 in
            (changed_sync_response (e_sync_error env) drive_result, set_drive s2 dr,
             [EvLoadRegions; EvCalculated n; EvPutGeojson; EvPutHash; EvSync])
          else (("Failed to save GeoJSON results.", 500%Z), s1,
                [EvLoadRegions; EvCalculated n; EvPutGeojson])
        else (("Failed to save GeoJSON results.", 500%Z), s, [EvLoadRegions; EvCalculated n])
      end
    end
  end.

End Run.

(** ** Containment query service *)

Section Query.
Context {S : Shapely}.

Record ZoneFeature : Type := mkZoneFeature {
  zf_geometry : geom;
  zf_properties : list (string * pyval)
}.

Inductive ComplianceStatus : Type := COMPLIANT | NON_COMPLIANT | UNKNOWN.

Record QueryResult : Type := mkQueryResult {
  in_no_swim_zone : bool;
  matched_zone : option ZoneFeature;
  compliance_status : ComplianceStatus
}.

(** Modelled from the spec: the containment query service (spec 4.8 and the
    query endpoint of section 6), whose code is not under src/.  "Linear
    scan over the current Zone Collection testing point-in-polygon
    membership (boundary-inclusive); returns the first match." *)
Fixpoint find_zone (zones : list ZoneFeature) (c : coord) : option ZoneFeature :=
  match zones with
  | [] => None
  | z :: zs => if covers (zf_geometry z) c then Some z else find_zone zs c
  end.

(** Modelled from the spec: the three-valued compliance status of the
    query result, [UNKNOWN] when the compliance flag is absent. *)
Definition derive_compliance (props : list (string * pyval)) : ComplianceStatus :=
  match dget props "compliance" PNone with
  | PBool true => COMPLIANT
  | PBool false => NON_COMPLIANT
  | _ => UNKNOWN
  end.

(** Modelled from the spec: [query(Coordinate) -> ZoneFeature|none] with
    the structured result of the endpoint. *)
Definition query (zones : list ZoneFeature) (c : coord) : QueryResult :=
  match find_zone zones c with
  | Some z => {| in_no_swim_zone := true; matched_zone := Some z;
                 compliance_status := derive_compliance (zf_properties z) |}
  | None => {| in_no_swim_zone := false; matched_zone := None;
               compliance_status := UNKNOWN |}
  end.

End Query.

(** ** [load_perifereies_data] (main.py, lines 54-68) *)

Section Regions.
Context {S : Shapely}.

(** [json.loads] and [shapely.geometry.shape]; [None]: the call raises. *)
Variable json_loads : string -> option pyval.
Variable shape : pyval -> option geom.

(** [[shape(f['geometry']) for f in features]]. *)
Fixpoint shapes (features : list pyval) : option (list geom) :=
  match features with
  | [] => Some []
  | f :: fs =>
      g <- py_getitem f "geometry" ;;
      geometry <- shape g ;;
      rest <- shapes fs ;;
      Some (geometry :: rest)
  end.

(** [download]: the text of the blob, [None] when getting the blob or
    [download_as_text()] raises.  Every exception of the body is caught by
    the [except] of line 66, which returns [None]. *)
Definition load_perifereies_data (download : option string) : option (list geom) :=
  geojson_data <- download ;;
  perifereies_features <- json_loads geojson_data ;;
  features <- py_get perifereies_features "features" (PList []) ;;
  fs <- py_iter features ;;
  shapes fs.

End Regions.

(** ** [src/geojson2kmlGDrive.py]

    The file holds the stand-alone KML/Drive function (lines 1-243) and,
    appended, an earlier version of the analysis function (lines 245-468).
    Its [upload_to_drive] (lines 105-183) is the code of main.py up to
    comments and docstring, and is modelled by the same definition. *)

Module GDrive.

(** The description f-string of this converter (lines 51-57). *)
Record Description : Type := mkDescription {
  gd_location : pyval;
  gd_compliance : string;
  gd_details : pyval
}.

(** [kml.newpolygon(...)] with its style, or [kml.newpoint(...)] with its
    icon colour.  The [style_url] of lines 62 and 65 is never used. *)
Inductive Placemark : Type :=
| KPolygon (name : pyval) (description : Description)
           (outerboundaryis : list (pyval * pyval)) (poly_color : string)
           (fill outline : Z) (line_color : string) (line_width : Z)
| KPoint (name : pyval) (description : Description)
         (coords : list (pyval * pyval)) (icon_color : string).

(** Lines 59-65: [simplekml.Color.red] or [simplekml.Color.blue]. *)
Definition compliance_color (compliance : pyval) : string :=
  if is_False compliance then Color_red else Color_blue.

Definition styled_polygon (name : pyval) (description : Description)
    (kml_coords : list (pyval * pyval)) (color : string) : Placemark :=
  KPolygon name description kml_coords color 1 1 Color_white 2.

(** [for polygon in coordinates] (lines 82-92): every part is named
    [location]. *)
Fixpoint multipolygon_items (location : pyval) (description : Description)
    (color : string) (polygons : list pyval) : option (list Placemark) :=
  match polygons with
  | [] => Some []
  | polygon :: rest =>
      coords <- py_index polygon 0 ;;
      kml_coords <- kml_coords_of coords ;;
      pols <- multipolygon_items location description color rest ;;
      Some (styled_polygon location description kml_coords color :: pols)
  end.

(** The geometry dispatch (lines 68-98). *)
Definition geometry_items (geom_type coordinates location : pyval)
    (description : Description) (color : string) : option (list Placemark) :=
  match geom_type with
  | PStr t =>
      if String.eqb t "Polygon" then
        coords <- py_index coordinates 0 ;;
        kml_coords <- kml_coords_of coords ;;
        Some [styled_polygon location description kml_coords color]
      else if String.eqb t "MultiPolygon" then
        polygons <- py_iter coordinates ;;
        multipolygon_items location description color polygons
      else if String.eqb t "Point" then
        x <- py_index coordinates 0 ;;
        y <- py_index coordinates 1 ;;
        Some [KPoint location description [(x, y)] color]
      else Some []
  | _ => Some []
  end.

(** The body of the loop for one feature (lines 40-98). *)
Definition feature_items (feature : pyval) : option (list Placemark) :=
  geometry <- py_get feature "geometry" (PDict []) ;;
  properties <- py_get feature "properties" (PDict []) ;;
  geom_type <- py_get geometry "type" PNone ;;
  coordinates <- py_get geometry "coordinates" (PList []) ;;
  location <- py_get properties "location" (PStr "Unknown Location") ;;
  compliance <- py_get properties "Column1.compliance" PNone ;;
  details <- py_get properties "details" (PStr "No details available") ;;
  let description := mkDescription location (compliance_text compliance) details in
  geometry_items geom_type coordinates location description (compliance_color compliance).

Fixpoint features_items (features : list pyval) : option (list Placemark) :=
  match features with
  | [] => Some []
  | f :: fs =>
      pf <- feature_items f ;;
      pfs <- features_items fs ;;
      Some (pf ++ pfs)%list
  end.

(** [geojson_to_kml] (lines 35-103), as its list of placemarks. *)
Definition geojson_to_kml (geojson_data : pyval) : option (list Placemark) :=
  features <- py_get geojson_data "features" (PList []) ;;
  fs <- py_iter features ;;
  features_items fs.

(** The name and the colour of a placemark. *)
Definition placemark_name (p : Placemark) : pyval :=
  match p with KPolygon name _ _ _ _ _ _ _ | KPoint name _ _ _ => name end.

Definition placemark_color (p : Placemark) : string :=
  match p with KPolygon _ _ _ color _ _ _ _ | KPoint _ _ _ color => color end.

(** An HTTP response of the function: the JSON body, the status and the
    headers. *)
Record HttpResponse : Type := mkHttpResponse {
  http_body : pyval;
  http_status : Z;
  http_headers : list (string * string)
}.

Definition CORS_PREFLIGHT_HEADERS : list (string * string) :=
  [("Access-Control-Allow-Origin", "*");
   ("Access-Control-Allow-Methods", "GET, POST");
   ("Access-Control-Allow-Headers", "Content-Type");
   ("Access-Control-Max-Age", "3600")].

Definition CORS_HEADERS : list (string * string) := [("Access-Control-Allow-Origin", "*")].

Section Http.

Variable json_loads : string -> option pyval.
Variable kml_to_string : list Placemark -> string.

(** [sync_to_drive(request)] (lines 187-243).  [geojson_blob]: the text of
    the GeoJSON blob ([None]: the download raises); [sync_error]: [str(e)]
    of the exception caught at line 238. *)
Definition sync_to_drive (sync_error : string) (method : string) (grant_ok : bool)
    (geojson_blob : option string) (dr : Drive) : HttpResponse * Drive :=
  if String.eqb method "OPTIONS" then
    (mkHttpResponse (PStr "") 204 CORS_PREFLIGHT_HEADERS, dr)
  else
  let failure := mkHttpResponse (PDict [("success", PBool false); ("error", PStr sync_error)])
                                500 CORS_HEADERS in
  match (txt <- geojson_blob ;; json_loads txt) with
  | None => (failure, dr)
  | Some geojson_data =>
    match (features <- py_get geojson_data "features" (PList []) ;; py_len features) with
    | None => (failure, dr)
    | Some feature_count =>
      match geojson_to_kml geojson_data with
      | None => (failure, dr)
      | Some kml =>
        let '(r, dr') := upload_to_drive grant_ok (kml_to_string kml) KML_FILENAME
                                         (Some DRIVE_FOLDER_ID) dr in
        match r with
        | None => (failure, dr')
        | Some drive_result =>
            (mkHttpResponse (sync_result feature_count drive_result) 200 CORS_HEADERS, dr')
        end
      end
    end
  end.

End Http.

(** The appended analysis function (lines 295-468). *)
Section Scrape.
Context {S : Shapely}.

(** [point_wgs84.x] and [point_wgs84.y] (lines 360-361) do not raise,
    i.e. the geometry is a Point. *)
Variable has_xy : geom -> bool.

(** The body of the loop (lines 324-389): as in main.py, with the reads of
    [.x] and [.y] before the reprojection, and the metadata alone as the
    properties of the feature. *)
Definition process_plant (unified : geom) (plant_feature : pyval) : step :=
  match py_get plant_feature "properties" plant_feature with
  | None => SExc
  | Some (PDict props) =>
      match resolve_discharge props with
      | RExc => SExc
      | RNone => SSkip
      | RPoint point_wgs84 =>
          if is_empty point_wgs84 then SSkip
          else if negb (has_xy point_wgs84) then SExc
          else match danger_zone unified point_wgs84 with
               | None => SExc
               | Some dz =>
                   if is_empty dz then SSkip
                   else SEmit (PDict [("type", PStr "Feature");
                                      ("geometry", mapping dz);
                                      ("properties", PDict (plant_metadata props))])
               end
      end
  | Some _ => SExc
  end.

Fixpoint process_all (unified : geom) (plants : list pyval) : list pyval :=
  match plants with
  | [] => []
  | p :: ps =>
      match process_plant unified p with
      | SEmit f => f :: process_all unified ps
      | _ => process_all unified ps
      end
  end.

(** [calculate_new_zones] (lines 295-392). *)
Definition calculate_new_zones (perifereies_geometries : list geom)
    (wastewater_data : pyval) : option (list pyval) :=
  match perifereies_geometries with
  | [] => Some []
  | _ =>
    match cascaded_union perifereies_geometries with
    | None => None
    | Some unified_perifereies =>
      match features_to_process wastewater_data with
      | None => Some []
      | Some fs =>
        match py_iter fs with
        | None => None
        | Some plants => Some (process_all unified_perifereies plants)
        end
      end
    end
  end.

Variable current_digest : pyval -> string.
Variable json_dumps : pyval -> string.

(** [check_for_changes] (lines 397-468): no Drive sync, and no hash write
    when the analysis yields no feature. *)
Definition check_for_changes (env : Env) (s : Store) : (string * Z) * Store * list Event :=
  match e_fetch env with
  | None => (("Failed to fetch data.", 500%Z), s, [])
  | Some wastewater_data =>
    let current_hash := current_digest wastewater_data in
    let unchanged :=
      e_hash_read_ok env
      && match st_hash s with
         | Some last_hash => String.eqb current_hash last_hash
         | None => false
         end in
    if unchanged then (("No changes detected.", 200%Z), s, [])
    else
    match e_regions env with
    | None => (("Failed to load perifereies data.", 500%Z), s, [EvLoadRegions])
    | Some perifereies_geometries =>
      match calculate_new_zones perifereies_geometries wastewater_data with
      | None => (("Internal Server Error", 500%Z), s, [EvLoadRegions])
      | Some [] => (("Analysis complete. No zones saved.", 200%Z), s, [EvLoadRegions; EvCalculated 0])
      | Some new_zones_features =>
        let n := length new_zones_features in
        if e_put_geojson_ok env then
          let s1 := set_geojson s (json_dumps (feature_collection new_zones_features)) in
          if e_put_hash_ok env then
            (("Analysis complete. New zones saved.", 200%Z), set_hash s1 current_hash,
             [EvLoadRegions; EvCalculated n; EvPutGeojson; EvPutHash])
          else (("Failed to save results.", 500%Z), s1, [EvLoadRegions; EvCalculated n; EvPutGeojson])
        else (("Failed to save results.", 500%Z), s, [EvLoadRegions; EvCalculated n])
      end
    end
  end.

End Scrape.

End GDrive.

(** ** A concrete geometry: sets of 100 m grid cells

    Used to run the pipeline on explicit inputs.  A geometry is a list of
    cells; reprojection is the identity; a buffer of radius [r] metres is
    the square of cells within [r / 100] cells; union is concatenation and
    difference removes the cells of the mask. *)

Definition cell := (Z * Z)%type.

Definition cell_eqb (a b : cell) : bool := Z.eqb (fst a) (fst b) && Z.eqb (snd a) (snd b).

Definition cell_mem (c : cell) (g : list cell) : bool := existsb (cell_eqb c) g.

Definition square_around (k : Z) (c : cell) : list cell :=
  let span := map (fun i => Z.of_nat i - k)%Z (seq 0 (Z.to_nat (2 * k + 1))) in
  flat_map (fun dx => map (fun dy => (fst c + dx, snd c + dy)%Z) span) span.

Definition grid_Point (lon lat : pyval) : option (list cell) :=
  match lon, lat with
  | PNum x, PNum y => Some [(x, y)]
  | _, _ => None
  end.

Definition grid_wkt_loads (s : string) : option (list cell) :=
  if String.eqb s "POINT EMPTY" then Some [] else None.

Definition grid_mapping (g : list cell) : pyval :=
  PDict [("type", PStr "MultiPoint");
         ("coordinates", PList (map (fun c => PList [PNum (fst c); PNum (snd c)]) g))].

Definition grid_interior (g : list cell) (c : cell) : bool :=
  cell_mem c g
  && cell_mem (fst c + 1, snd c)%Z g && cell_mem (fst c - 1, snd c)%Z g
  && cell_mem (fst c, snd c + 1)%Z g && cell_mem (fst c, snd c - 1)%Z g.

#[export] Instance GridShapely : Shapely := {
  geom := list cell;
  coord := cell;
  wkt_loads := grid_wkt_loads;
  Point := grid_Point;
  is_empty := fun g => match g with [] => true | _ => false end;
  to_greek_grid := fun g => Some g;
  to_wgs84 := fun g => Some g;
  buffer := fun g r => Some (flat_map (square_around (r / 100)) g);
  difference := fun a b => Some (filter (fun c => negb (cell_mem c b)) a);
  cascaded_union := fun gs => Some (concat gs);
  mapping := grid_mapping;
  covers := fun g c => cell_mem c g;
  interior := grid_interior
}.

(** Collaborators for concrete runs. *)
Definition grid_digest (v : pyval) : string := py_repr v.
Definition grid_dumps (v : pyval) : string := py_repr v.
Definition grid_loads (s : string) : option pyval := None.
Definition grid_kml_string (k : list KmlPolygon) : string := "<kml/>".

Definition empty_drive : Drive := {| dr_files := []; dr_next_id := 0; dr_permissions := [] |}.
Definition empty_store : Store := {| st_hash := None; st_geojson := None; st_drive := empty_drive |}.

Definition grid_run (env : @Env GridShapely) (s : Store) :=
  @check_for_changes GridShapely grid_digest grid_dumps grid_loads grid_kml_string env s.

(** A plant record with explicit coordinates (in cells). *)
Definition plant_at (code : string) (x y : Z) : pyval :=
  PDict [("code", PStr code); ("name", PStr code); ("longitude", PNum x); ("latitude", PNum y)].


(** ** Concrete inputs *)

(** A run on which nothing is published: one plant wholly inland. *)
Definition env_inland : @Env GridShapely :=
  {| e_fetch := Some (PList [plant_at "A1" 0 0]); e_hash_read_ok := true;
     e_regions := Some [square_around 3 (0, 0)%Z];
     e_put_geojson_ok := true; e_put_hash_ok := true; e_grant_ok := true;
     e_sync_error := "" |}.

(** A run whose region file loads with no feature. *)
Definition env_no_regions : @Env GridShapely :=
  {| e_fetch := Some (PList [plant_at "A1" 0 0]); e_hash_read_ok := true;
     e_regions := Some [];
     e_put_geojson_ok := true; e_put_hash_ok := true; e_grant_ok := true;
     e_sync_error := "" |}.

(** A Polygon feature with the given properties. *)
Definition square_fields (props : list (string * pyval)) : list (string * pyval) :=
  [("type", PStr "Feature");
   ("geometry", PDict [("type", PStr "Polygon");
                       ("coordinates",
                        PList [PList [PList [PNum 0; PNum 0]; PList [PNum 1; PNum 0];
                                      PList [PNum 1; PNum 1]; PList [PNum 0; PNum 0]]])]);
   ("properties", PDict props)].

Definition square_feature (props : list (string * pyval)) : pyval :=
  PDict (square_fields props).

Definition env_same : @Env GridShapely :=
  {| e_fetch := Some (PList [plant_at "A1" 0 0]); e_hash_read_ok := true;
     e_regions := Some [square_around 3 (0, 0)%Z];
     e_put_geojson_ok := true; e_put_hash_ok := true; e_grant_ok := true;
     e_sync_error := "" |}.

Definition store_same : Store :=
  {| st_hash := Some (grid_digest (PList [plant_at "A1" 0 0])); st_geojson := None;
     st_drive := empty_drive |}.

Definition zoneA : @ZoneFeature GridShapely :=
  {| zf_geometry := square_around 1 (0, 0)%Z; zf_properties := [("code", PStr "A1")] |}.
Definition zoneB : @ZoneFeature GridShapely :=
  {| zf_geometry := square_around 1 (0, 0)%Z; zf_properties := [("code", PStr "B2")] |}.

(** A payload that is neither a list nor a dict with ["features"]. *)
Definition env_malformed : @Env GridShapely :=
  {| e_fetch := Some (PDict [("error", PStr "unavailable")]); e_hash_read_ok := true;
     e_regions := Some [[(100, 100)%Z]];
     e_put_geojson_ok := true; e_put_hash_ok := true; e_grant_ok := true;
     e_sync_error := "" |}.

(** One plant at sea next to a one-cell island; the hash write fails. *)
Definition env_sea_hash_fails : @Env GridShapely :=
  {| e_fetch := Some (PList [plant_at "A1" 0 0]); e_hash_read_ok := true;
     e_regions := Some [[(100, 100)%Z]];
     e_put_geojson_ok := true; e_put_hash_ok := false; e_grant_ok := true;
     e_sync_error := "" |}.

(** The stored hash cannot be read. *)
Definition env_hash_unreadable : @Env GridShapely :=
  {| e_fetch := Some (PList [plant_at "A1" 0 0]); e_hash_read_ok := false;
     e_regions := Some [square_around 3 (0, 0)%Z];
     e_put_geojson_ok := true; e_put_hash_ok := true; e_grant_ok := true;
     e_sync_error := "" |}.

(** In the grid, a Point is a single cell. *)
Definition grid_has_xy (g : list cell) : bool :=
  match g with [_] => true | _ => false end.

(** A two-part MultiPolygon geometry. *)
Definition two_squares : pyval :=
  PList [PList [PList [PList [PNum 0; PNum 0]; PList [PNum 1; PNum 0]; PList [PNum 0; PNum 0]]];
         PList [PList [PList [PNum 5; PNum 5]; PList [PNum 6; PNum 5]; PList [PNum 5; PNum 5]]]].

(** A store whose GeoJSON blob holds an empty collection. *)
Definition store_one_zone : Store :=
  {| st_geojson := Some "{}"; st_hash := None; st_drive := empty_drive |}.

(** [a] occurs in the trace strictly before some occurrence of [b]. *)
Definition before (a b : Event) (tr : list Event) : Prop :=
  exists l1 l2, tr = (l1 ++ b :: l2)%list /\ In a l1.

(** ** Theorems *)

(** C1 (counterexample): with the only plant inland, the analysis yields no
    zone; the run writes the hash although no Zone Collection is published. *)
Lemma C1_hash_written_without_publish :
  let '(_, s', tr) := grid_run env_inland empty_store in
  st_hash s' <> st_hash empty_store /\ ~ In EvPutGeojson tr.
Proof.
  vm_compute. split; [discriminate | intuition discriminate].
Qed.

(** C1 (amended): in every run the stored hash either stays as it was, or
    becomes the digest of the fetched payload, written after a successful
    GeoJSON write or after an analysis that yielded no feature (then with
    no GeoJSON write); and when the GeoJSON write fails, the stored hash is
    unchanged unless the analysis yielded no feature. *)
Theorem C1_hash_after_publish_or_empty :
  forall (G : Shapely) dig dumps loads kmls (env : Env) (s : Store),
    let '(_, s', tr) := @check_for_changes G dig dumps loads kmls env s in
    (st_hash s' = st_hash s
     \/ (exists p, e_fetch env = Some p /\ st_hash s' = Some (dig p))
        /\ ((In (EvCalculated 0) tr /\ ~ In EvPutGeojson tr)
            \/ before EvPutGeojson EvPutHash tr))
    /\ (e_put_geojson_ok env = false ->
        st_hash s' = st_hash s \/ In (EvCalculated 0) tr).
Proof.
  intros G dig dumps loads kmls env s.
  unfold check_for_changes.
  destruct (e_fetch env) as [p|] eqn:Hf; [|simpl; auto].
  destruct (e_hash_read_ok env && _) eqn:Hu.
  - destruct (sync_to_drive_internal _ _ _ _) as [[a|] dr]; simpl; auto.
  - destruct (e_regions env) as [regs|]; [|simpl; auto].
    destruct (calculate_new_zones regs p) as [[|f fs]|]; [| |simpl; auto].
    + destruct (e_put_hash_ok env); simpl.
      * split; [right; split; [eauto|] | auto].
        left; split; [auto|intuition discriminate].
      * auto.
    + destruct (e_put_geojson_ok env) eqn:Hg; [|simpl; auto].
      destruct (e_put_hash_ok env); [|simpl; split; [auto|discriminate]].
      destruct (sync_to_drive_internal _ _ _ _) as [[a|] dr]; simpl;
        (split; [right; split; [eauto|right] | discriminate]);
        exists [EvLoadRegions; EvCalculated (S (length fs)); EvPutGeojson], [EvSync];
        simpl; intuition.
Qed.


(** C2 (counterexample): with an empty region dataset the run succeeds with
    status 200 and commits the Change Record. *)
Lemma C2_empty_regions_commit_hash :
  let '(resp, s', _) := grid_run env_no_regions empty_store in
  resp = ("Analysis complete. No zones saved.", 200%Z)
  /\ st_hash s' = Some (grid_digest (PList [plant_at "A1" 0 0])).
Proof. vm_compute. split; reflexivity. Qed.

Lemma unchanged_false (h : string) (sh : option string) (read_ok : bool) :
  read_ok = false \/ sh <> Some h ->
  read_ok && match sh with Some last => String.eqb h last | None => false end = false.
Proof.
  intros [->|Hne]; [reflexivity|].
  destruct read_ok; [|reflexivity]. destruct sh as [l|]; [|reflexivity].
  simpl. apply String.eqb_neq. intros ->. apply Hne. reflexivity.
Qed.

(** C2 (amended): an empty region list makes [calculate_new_zones] return
    no feature without any union, buffer or difference.  In a run that
    does not skip, no artifact is then published (no GeoJSON write, no
    Drive sync, Drive unchanged), the run answers 200
    "Analysis complete. No zones saved." and commits the Change Record
    (when the hash write succeeds).  A region file that cannot be loaded
    fails the run (500) before any per-facility work, with nothing
    written. *)
Theorem C2_empty_regions_not_fatal :
  forall (G : Shapely) dig dumps loads kmls (env : Env) (s : Store) p,
    e_fetch env = Some p ->
    (e_hash_read_ok env = false \/ st_hash s <> Some (dig p)) ->
    (forall data, @calculate_new_zones G [] data = Some [])
    /\ (e_regions env = Some [] ->
        let '(resp, s', tr) := @check_for_changes G dig dumps loads kmls env s in
        ~ In EvPutGeojson tr /\ st_geojson s' = st_geojson s
        /\ ~ In EvSync tr /\ st_drive s' = st_drive s
        /\ (e_put_hash_ok env = true ->
            resp = ("Analysis complete. No zones saved.", 200%Z)
            /\ st_hash s' = Some (dig p)))
    /\ (e_regions env = None ->
        @check_for_changes G dig dumps loads kmls env s
        = (("Failed to load perifereies data.", 500%Z), s, [EvLoadRegions])).
Proof.
  intros G dig dumps loads kmls env s p Hf Hnot.
  split; [reflexivity|].
  unfold check_for_changes. rewrite Hf.
  rewrite (unchanged_false (dig p) (st_hash s) (e_hash_read_ok env) Hnot).
  split; intros Hr; rewrite Hr; [|reflexivity].
  simpl. destruct (e_put_hash_ok env); simpl.
  - split; [intuition discriminate|]. split; [reflexivity|].
    split; [intuition discriminate|]. split; [reflexivity|]. auto.
  - split; [intuition discriminate|]. split; [reflexivity|].
    split; [intuition discriminate|]. split; [reflexivity|]. discriminate.
Qed.

(** Witness of C2: a first run (no stored hash) with an empty region list. *)
Lemma C2_empty_regions_not_fatal_witness :
  e_fetch env_no_regions = Some (PList [plant_at "A1" 0 0])
  /\ (forall data, @calculate_new_zones GridShapely [] data = Some []).
Proof.
  assert (Hn : e_hash_read_ok env_no_regions = false
               \/ st_hash empty_store <> Some (grid_digest (PList [plant_at "A1" 0 0])))
    by (right; discriminate).
  assert (H := C2_empty_regions_not_fatal GridShapely grid_digest grid_dumps grid_loads
                 grid_kml_string env_no_regions empty_store (PList [plant_at "A1" 0 0])
                 eq_refl Hn).
  split; [reflexivity | exact (proj1 H)].
Defined.

(** Every placemark built for one feature carries the feature's colour and
    description and no inner boundary. *)
Lemma multipolygon_parts_style location description color i polygons pms :
  multipolygon_parts location description color i polygons = Some pms ->
  Forall (fun p => kp_poly_color p = color /\ kp_description p = description
                   /\ kp_innerboundaryis p = []) pms.
Proof.
  revert i pms. induction polygons as [|pg rest IH]; intros i pms H; simpl in H.
  - injection H as <-. constructor.
  - destruct (py_index pg 0) as [coords|]; [|discriminate].
    destruct (kml_coords_of coords) as [kc|]; [|discriminate].
    destruct (multipolygon_parts location description color (S i) rest) as [ps|] eqn:E;
      [|discriminate].
    injection H as <-. constructor; [simpl; auto | exact (IH _ _ E)].
Qed.

Lemma geometry_placemarks_style geom_type coordinates location description color pms :
  geometry_placemarks geom_type coordinates location description color = Some pms ->
  Forall (fun p => kp_poly_color p = color /\ kp_description p = description
                   /\ kp_innerboundaryis p = []) pms.
Proof.
  unfold geometry_placemarks. intros H.
  destruct geom_type as [| | |t| |]; try (injection H as <-; constructor).
  destruct (String.eqb t "Polygon").
  - destruct (py_index coordinates 0) as [coords|]; [|discriminate].
    destruct (kml_coords_of coords) as [kc|]; [|discriminate].
    injection H as <-. repeat constructor.
  - destruct (String.eqb t "MultiPolygon"); [|injection H as <-; constructor].
    destruct (py_iter coordinates) as [pgs|]; [|discriminate].
    exact (multipolygon_parts_style _ _ _ _ _ _ H).
Qed.

Lemma feature_placemarks_style fd pd pms :
  dget fd "properties" (PDict []) = PDict pd ->
  feature_placemarks (PDict fd) = Some pms ->
  Forall (fun p =>
            kp_poly_color p = compliance_color (dget pd "Column1.compliance" PNone)
            /\ d_compliance (kp_description p)
               = compliance_text (dget pd "Column1.compliance" PNone)
            /\ kp_innerboundaryis p = []) pms.
Proof.
  intros Hp H. unfold feature_placemarks in H. simpl in H. rewrite Hp in H. simpl in H.
  destruct (dget fd "geometry" (PDict [])) as [| | | | |gd]; try discriminate.
  simpl in H.
  apply geometry_placemarks_style in H.
  eapply Forall_impl; [|exact H]. simpl. intros p (-> & -> & ->). auto.
Qed.


(** C3 (counterexample): a feature without a compliance value gets the very
    style and label of a compliant one, and the pipeline writes [True]
    for a plant without [is_compliant]. *)
Lemma C3_absent_compliance_styled_compliant :
  option_map (map (fun p => (kp_poly_color p, d_compliance (kp_description p))))
             (feature_placemarks (square_feature [("location", PStr "A1")]))
  = option_map (map (fun p => (kp_poly_color p, d_compliance (kp_description p))))
               (feature_placemarks (square_feature [("location", PStr "A1");
                                                    ("Column1.compliance", PBool true)]))
  /\ dget (kml_properties [("code", PStr "A1")]) "Column1.compliance" PNone
     = PBool true.
Proof. split; reflexivity. Qed.

(** C3 (amended): the converter has two styles.  Every placemark of a
    feature gets the red warning colour and the NON-COMPLIANT label when the
    feature's ["Column1.compliance"] is exactly [False], and otherwise (True,
    absent or any other value) the same semi-transparent blue colour and the
    Compliant label; the pipeline sets ["Column1.compliance"] from
    ["is_compliant"], defaulting to [True]. *)
Theorem C3_two_styles :
  forall fd pd pms,
    dget fd "properties" (PDict []) = PDict pd ->
    feature_placemarks (PDict fd) = Some pms ->
    Forall (fun p =>
              kp_poly_color p
              = (if is_False (dget pd "Column1.compliance" PNone)
                 then Color_red else Color_blue_alpha150)
              /\ d_compliance (kp_description p)
                 = (if is_False (dget pd "Column1.compliance" PNone)
                    then "⚠️ NON-COMPLIANT" else "✓ Compliant")) pms
    /\ Color_red <> Color_blue_alpha150
    /\ (forall props,
          dget (kml_properties props) "Column1.compliance" PNone
          = dget props "is_compliant" (PBool true)).
Proof.
  intros fd pd pms Hp H. split; [|split].
  - eapply Forall_impl; [|exact (feature_placemarks_style fd pd pms Hp H)].
    intros p (Hc & Ht & _). split; assumption.
  - discriminate.
  - intros props. reflexivity.
Qed.

(** Witness of C3: a feature without compliance value. *)
Lemma C3_two_styles_witness :
  exists pms, feature_placemarks (square_feature [("location", PStr "A1")]) = Some pms
              /\ Forall (fun p => kp_poly_color p = Color_blue_alpha150) pms.
Proof.
  eexists. split; [reflexivity|].
  destruct (C3_two_styles (square_fields [("location", PStr "A1")]) [("location", PStr "A1")]
              _ eq_refl eq_refl) as [H _].
  eapply Forall_impl; [|exact H]. intros p [Hc _]. exact Hc.
Defined.

(** The dict returned by [sync_to_drive_internal] is the one built at lines
    342-349, which has no ["action"] key. *)
Lemma sync_to_drive_internal_dict loads kmls grant_ok s d :
  fst (sync_to_drive_internal loads kmls grant_ok s) = Some d ->
  exists fc res, d = sync_result fc res.
Proof.
  unfold sync_to_drive_internal.
  destruct (st_geojson s) as [txt|]; [|discriminate].
  destruct (loads txt) as [gj|]; [|discriminate].
  destruct (_ <- py_get gj "features" (PList []) ;; py_len _) as [fc|]; [|discriminate].
  destruct (geojson_to_kml gj) as [kml|]; [|discriminate].
  destruct (upload_to_drive _ _ _ _ _) as [[res|] dr]; [|discriminate].
  simpl. intros H. injection H as <-. eauto.
Qed.

Lemma unchanged_sync_response_500 sync_error loads kmls grant_ok s :
  snd (unchanged_sync_response sync_error (fst (sync_to_drive_internal loads kmls grant_ok s)))
  = 500%Z.
Proof.
  destruct (fst (sync_to_drive_internal loads kmls grant_ok s)) as [d|] eqn:E; [|reflexivity].
  destruct (sync_to_drive_internal_dict loads kmls grant_ok s d E) as (fc & res & ->).
  reflexivity.
Qed.

(** C4: when the stored Change Record equals the digest of the fetched
    payload, the run only calls the Drive sync, the KML republish: no region
    loading, no computation, no GCS write; only Drive may change, by the
    sync.  The response is the one built from the sync's result at lines
    380-384, which is a 500 whatever the sync does. *)
Theorem C4_unchanged_payload_skips :
  forall (G : Shapely) dig dumps loads kmls (env : Env) (s : Store) p,
    e_fetch env = Some p ->
    e_hash_read_ok env = true ->
    st_hash s = Some (dig p) ->
    let '(resp, s', tr) := @check_for_changes G dig dumps loads kmls env s in
    tr = [EvSync]
    /\ st_hash s' = st_hash s /\ st_geojson s' = st_geojson s
    /\ st_drive s' = snd (sync_to_drive_internal loads kmls (e_grant_ok env) s)
    /\ resp = unchanged_sync_response (e_sync_error env)
                (fst (sync_to_drive_internal loads kmls (e_grant_ok env) s))
    /\ snd resp = 500%Z.
Proof.
  intros G dig dumps loads kmls env s p Hf Hr Hh.
  assert (H500 := unchanged_sync_response_500 (e_sync_error env) loads kmls (e_grant_ok env) s).
  unfold check_for_changes. rewrite Hf, Hr, Hh, String.eqb_refl. simpl.
  destruct (sync_to_drive_internal loads kmls (e_grant_ok env) s) as [r dr].
  cbn [fst snd] in H500. cbv beta iota.
  split; [reflexivity|]. split; [simpl; congruence|]. split; [reflexivity|].
  split; [reflexivity|]. split; [reflexivity|]. exact H500.
Qed.


(** Witness of C4: a second run on the same payload. *)
Lemma C4_unchanged_payload_skips_witness :
  snd (grid_run env_same store_same) = [EvSync].
Proof.
  assert (H := C4_unchanged_payload_skips GridShapely grid_digest grid_dumps grid_loads
                 grid_kml_string env_same store_same (PList [plant_at "A1" 0 0])
                 eq_refl eq_refl eq_refl).
  unfold grid_run. destruct (check_for_changes _ _ _ _ _ _) as [[resp s'] tr].
  destruct H as [Htr _]. exact Htr.
Defined.

Lemma process_all_app {G : Shapely} (u : geom) (ps1 ps2 : list pyval) :
  process_all u (ps1 ++ ps2) = (process_all u ps1 ++ process_all u ps2)%list.
Proof.
  induction ps1 as [|p ps IH]; simpl; [reflexivity|].
  destruct (process_plant u p); rewrite ?IH; reflexivity.
Qed.

Lemma process_all_in {G : Shapely} (u : geom) (plants : list pyval) (f : pyval) :
  In f (process_all u plants) -> exists plant, In plant plants /\ process_plant u plant = SEmit f.
Proof.
  induction plants as [|p ps IH]; simpl; [contradiction|].
  destruct (process_plant u p) as [| |f'] eqn:E; intros H.
  - destruct (IH H) as (pl & Hin & Hpl). eauto.
  - destruct (IH H) as (pl & Hin & Hpl). eauto.
  - destruct H as [<-|H]; [eauto|]. destruct (IH H) as (pl & Hin & Hpl). eauto.
Qed.

Lemma process_plant_emit {G : Shapely} (u : geom) (plant f : pyval) :
  process_plant u plant = SEmit f ->
  exists props pt dz,
    py_get plant "properties" plant = Some (PDict props)
    /\ resolve_discharge props = RPoint pt /\ is_empty pt = false
    /\ danger_zone u pt = Some dz /\ is_empty dz = false
    /\ f = zone_feature dz props.
Proof.
  unfold process_plant.
  destruct (py_get plant "properties" plant) as [[| | | | |props]|] eqn:Hp; try discriminate.
  destruct (resolve_discharge props) as [pt| |] eqn:Hr; try discriminate.
  destruct (is_empty pt) eqn:Ep; [discriminate|].
  destruct (danger_zone u pt) as [dz|] eqn:Hz; [|discriminate].
  destruct (is_empty dz) eqn:Ed; [discriminate|].
  intros H. injection H as <-. exists props, pt, dz. auto 7.
Qed.

Lemma danger_zone_steps {G : Shapely} (u pt dz : geom) :
  danger_zone u pt = Some dz ->
  exists pg bg bw, to_greek_grid pt = Some pg /\ buffer pg BUFFER_DISTANCE_METERS = Some bg
                   /\ to_wgs84 bg = Some bw /\ difference bw u = Some dz.
Proof.
  unfold danger_zone.
  destruct (to_greek_grid pt) as [pg|] eqn:H1; [|discriminate].
  destruct (buffer pg BUFFER_DISTANCE_METERS) as [bg|] eqn:H2; [|discriminate].
  destruct (to_wgs84 bg) as [bw|] eqn:H3; [|discriminate].
  intros H. eauto 7.
Qed.

Lemma calculate_new_zones_some {G : Shapely} regions data feats :
  calculate_new_zones regions data = Some feats ->
  feats = [] \/
  exists u fs plants, cascaded_union regions = Some u /\ features_to_process data = Some fs
                      /\ py_iter fs = Some plants /\ feats = process_all u plants.
Proof.
  unfold calculate_new_zones. destruct regions as [|r rs]; [intros H; injection H; auto|].
  destruct (cascaded_union (r :: rs)) as [u|] eqn:Hu; [|discriminate].
  destruct (features_to_process data) as [fs|] eqn:Hfs; [|intros H; injection H; auto].
  destruct (py_iter fs) as [plants|] eqn:Hit; [|discriminate].
  intros H. injection H as <-. right. eauto 8.
Qed.

(** C5: every emitted feature is the mapping of a non-empty geometry
    obtained from one input plant as [buffer.difference(unified)], and,
    for a geometry library whose [difference] result meets no interior
    point of the mask, it meets no interior point of the unified regions;
    a plant whose difference is empty yields no feature. *)
Theorem C5_zone_geometry_invariant :
  forall (G : Shapely)
    (difference_outside : forall a b d, difference a b = Some d ->
                          forall c, covers d c = true -> interior b c = false)
    regions data feats,
    calculate_new_zones regions data = Some feats ->
    (forall f, In f feats ->
       exists unified fs plants plant props pt pg bg bw dz,
         cascaded_union regions = Some unified
         /\ features_to_process data = Some fs /\ py_iter fs = Some plants
         /\ In plant plants
         /\ py_get plant "properties" plant = Some (PDict props)
         /\ resolve_discharge props = RPoint pt
         /\ to_greek_grid pt = Some pg /\ buffer pg BUFFER_DISTANCE_METERS = Some bg
         /\ to_wgs84 bg = Some bw /\ difference bw unified = Some dz
         /\ is_empty dz = false
         /\ f = zone_feature dz props
         /\ (forall c, covers dz c = true -> interior unified c = false))
    /\ (forall unified plant props pt dz,
          py_get plant "properties" plant = Some (PDict props) ->
          resolve_discharge props = RPoint pt ->
          danger_zone unified pt = Some dz -> is_empty dz = true ->
          process_plant unified plant = SSkip).
Proof.
  intros G Hd regions data feats Hc. split.
  - intros f Hin.
    destruct (calculate_new_zones_some regions data feats Hc)
      as [->|(u & fs & plants & Hu & Hfs & Hit & ->)]; [contradiction|].
    destruct (process_all_in u plants f Hin) as (plant & Hpl & He).
    destruct (process_plant_emit u plant f He) as (props & pt & dz & Hp & Hr & _ & Hz & Hne & ->).
    destruct (danger_zone_steps u pt dz Hz) as (pg & bg & bw & H1 & H2 & H3 & H4).
    exists u, fs, plants, plant, props, pt, pg, bg, bw, dz.
    repeat (split; [eassumption || reflexivity|]).
    exact (Hd _ _ _ H4).
  - intros unified plant props pt dz Hp Hr Hz He.
    unfold process_plant. rewrite Hp, Hr, Hz, He.
    destruct (is_empty pt); reflexivity.
Qed.

Lemma cell_eqb_eq (a b : cell) : cell_eqb a b = true -> a = b.
Proof.
  destruct a as [x y], b as [x' y']. unfold cell_eqb. simpl.
  rewrite andb_true_iff, !Z.eqb_eq. intros [-> ->]. reflexivity.
Qed.

Lemma grid_difference_outside :
  forall a b d, @difference GridShapely a b = Some d ->
  forall c, @covers GridShapely d c = true -> @interior GridShapely b c = false.
Proof.
  simpl. intros a b d H c Hc. injection H as <-.
  unfold cell_mem in Hc. apply existsb_exists in Hc as (x & Hx & Heq).
  apply filter_In in Hx as [_ Hx]. apply cell_eqb_eq in Heq as <-.
  unfold grid_interior. apply negb_true_iff in Hx. fold (cell_mem c b) in Hx.
  rewrite Hx. reflexivity.
Qed.

(** Witness of C5: one plant at sea next to a one-cell island. *)
Lemma C5_zone_geometry_invariant_witness :
  exists unified dz,
    @cascaded_union GridShapely [[(100, 100)%Z]] = Some unified
    /\ @is_empty GridShapely dz = false
    /\ (forall c, @covers GridShapely dz c = true -> @interior GridShapely unified c = false).
Proof.
  destruct (C5_zone_geometry_invariant GridShapely grid_difference_outside
              [[(100, 100)%Z]] (PList [plant_at "A1" 0 0]) _ eq_refl) as [H _].
  destruct (H _ (or_introl eq_refl))
    as (u & fs & plants & plant & props & pt & pg & bg & bw & dz & Hu & _ & _ & _ & _ & _
        & _ & _ & _ & _ & Hne & _ & Hout).
  exists u, dz. auto.
Defined.

(** C6: the discharge point is the parsed WKT field when that field is a
    non-empty string that parses; otherwise [Point(longitude, latitude)]
    when both are present; a plant whose point does not resolve, or whose
    processing raises, contributes nothing, and the loop goes on with the
    other plants: the features of a list are those of its parts.  The
    function itself only fails on the union of the regions or on a
    ["features"] value that cannot be iterated. *)
Theorem C6_resolution_and_isolation :
  forall (G : Shapely),
    (forall props s g,
        dget props "receiverLocation" PNone = PStr s -> s <> "" -> wkt_loads s = Some g ->
        resolve_discharge props = RPoint g)
    /\ (forall props,
          wkt_point props = None <->
          (truthy (dget props "receiverLocation" PNone) = false
           \/ forall s, dget props "receiverLocation" PNone = PStr s -> wkt_loads s = None))
    /\ (forall props g,
          wkt_point props = None ->
          is_None (dget props "longitude" PNone) = false ->
          is_None (dget props "latitude" PNone) = false ->
          Point (dget props "longitude" PNone) (dget props "latitude" PNone) = Some g ->
          resolve_discharge props = RPoint g)
    /\ (forall props,
          wkt_point props = None ->
          is_None (dget props "longitude" PNone) || is_None (dget props "latitude" PNone) = true ->
          resolve_discharge props = RNone)
    /\ (forall u plant props,
          py_get plant "properties" plant = Some (PDict props) ->
          (forall g, resolve_discharge props <> RPoint g) ->
          process_plant u plant = SSkip \/ process_plant u plant = SExc)
    /\ (forall u plant ps1 ps2,
          (forall f, process_plant u plant <> SEmit f) ->
          process_all u (ps1 ++ plant :: ps2) = (process_all u ps1 ++ process_all u ps2)%list)
    /\ (forall u ps1 ps2,
          process_all u (ps1 ++ ps2) = (process_all u ps1 ++ process_all u ps2)%list)
    /\ (forall regions data,
          calculate_new_zones regions data = None ->
          cascaded_union regions = None
          \/ exists fs, features_to_process data = Some fs /\ py_iter fs = None).
Proof.
  intros G. split; [|split; [|split; [|split; [|split; [|split; [|split]]]]]].
  - intros props s g Hw Hs Hl. unfold resolve_discharge, wkt_point. rewrite Hw. simpl.
    destruct (String.eqb s "") eqn:E; [apply String.eqb_eq in E; contradiction|].
    simpl. rewrite Hl. reflexivity.
  - intros props. unfold wkt_point.
    destruct (dget props "receiverLocation" PNone) as [|b|z|s|l|d]; simpl.
    + split; auto.
    + destruct b; split; auto; intros _; right; intros s E; discriminate.
    + destruct (Z.eqb z 0); simpl; split; auto; intros _; right; intros s E; discriminate.
    + destruct (String.eqb s ""); simpl; split; auto.
      * intros H. right. intros s' E. injection E as <-. exact H.
      * intros [H|H]; [discriminate|]. apply H. reflexivity.
    + destruct l; simpl; split; auto; intros _; right; intros s E; discriminate.
    + destruct d; simpl; split; auto; intros _; right; intros s E; discriminate.
  - intros props g Hw Hlon Hlat Hp. unfold resolve_discharge.
    rewrite Hw, Hlon, Hlat. simpl. rewrite Hp. reflexivity.
  - intros props Hw Hn. unfold resolve_discharge. rewrite Hw.
    destruct (is_None (dget props "longitude" PNone)), (is_None (dget props "latitude" PNone));
      simpl in *; try discriminate; reflexivity.
  - intros u plant props Hp Hr. unfold process_plant. rewrite Hp.
    destruct (resolve_discharge props) as [g| |]; auto.
    exfalso. exact (Hr g eq_refl).
  - intros u plant ps1 ps2 Hne. rewrite process_all_app. simpl.
    destruct (process_plant u plant) as [| |f]; try reflexivity.
    exfalso. exact (Hne f eq_refl).
  - intros u ps1 ps2. apply process_all_app.
  - intros regions data. unfold calculate_new_zones.
    destruct regions as [|r rs]; [discriminate|].
    destruct (cascaded_union (r :: rs)) as [u|]; [|auto].
    destruct (features_to_process data) as [fs|] eqn:Hfs; [|discriminate].
    destruct (py_iter fs) as [plants|] eqn:Hit; [discriminate|]. eauto.
Qed.


Lemma files_list_matches dr filename folder_id :
  files_list dr filename folder_id = filter (matches_key filename folder_id) (dr_files dr).
Proof. reflexivity. Qed.

Lemma files_list_update dr file_id content filename folder_id :
  files_list (files_update dr file_id content) filename folder_id
  = map (update_content file_id content) (files_list dr filename folder_id).
Proof.
  rewrite !files_list_matches. simpl. induction (dr_files dr) as [|f fs IH]; [reflexivity|].
  simpl. replace (matches_key filename folder_id (update_content file_id content f))
           with (matches_key filename folder_id f)
    by (unfold update_content; destruct (String.eqb (df_id f) file_id); reflexivity).
  destruct (matches_key filename folder_id f); simpl; rewrite IH; reflexivity.
Qed.

Lemma files_list_create dr filename folder_id content :
  files_list (files_create dr filename folder_id content) filename folder_id
  = (files_list dr filename folder_id ++
     [{| df_id := fresh_file_id dr; df_name := filename; df_mimeType := KML_MIME;
         df_parents := match folder_given folder_id with Some fo => [fo] | None => [] end;
         df_trashed := false; df_content := content |}])%list.
Proof.
  rewrite !files_list_matches. simpl. rewrite filter_app. f_equal.
  simpl. unfold matches_key. simpl. rewrite String.eqb_refl. simpl.
  destruct (folder_given folder_id) as [fo|]; simpl; [rewrite String.eqb_refl|]; reflexivity.
Qed.

Lemma files_list_permissions dr file_id filename folder_id :
  files_list (permissions_create dr file_id) filename folder_id = files_list dr filename folder_id.
Proof. reflexivity. Qed.

Lemma update_content_same file_id content f :
  df_id f = file_id -> df_content (update_content file_id content f) = content
                       /\ df_id (update_content file_id content f) = file_id.
Proof. intros <-. unfold update_content. rewrite String.eqb_refl. auto. Qed.

Lemma upload_files grant_ok content filename folder_id dr :
  files_list (snd (upload_to_drive grant_ok content filename folder_id dr)) filename folder_id
  = match files_list dr filename folder_id with
    | f :: _ => files_list (files_update dr (df_id f) content) filename folder_id
    | [] => files_list (files_create dr filename folder_id content) filename folder_id
    end.
Proof.
  unfold upload_to_drive.
  destruct (files_list dr filename folder_id) as [|f fs];
    destruct grant_ok; simpl; reflexivity.
Qed.

Lemma upload_action content filename folder_id dr :
  exists res, fst (upload_to_drive true content filename folder_id dr) = Some res
  /\ ur_action res = match files_list dr filename folder_id with
                     | [] => "created" | _ => "updated" end.
Proof.
  unfold upload_to_drive.
  destruct (files_list dr filename folder_id) as [|f fs]; simpl; eauto.
Qed.

(** C7: [upload_to_drive] is an upsert on the key (name, not trashed, in
    the folder when one is given).  When the grant succeeds it answers
    "updated" if a matching file exists and "created" otherwise; in every
    case the number of matching files afterwards is [max 1 n] for [n]
    before, and the first match holds the new content (the same file when
    one existed).  From a Drive without a match, two uploads answer
    "created" then "updated" and leave exactly one matching file. *)
Theorem C7_upsert_by_key :
  (forall grant_ok content filename folder_id dr,
     let dr' := snd (upload_to_drive grant_ok content filename folder_id dr) in
     (grant_ok = true ->
      option_map ur_action (fst (upload_to_drive grant_ok content filename folder_id dr))
      = Some (match files_list dr filename folder_id with [] => "created" | _ => "updated" end))
     /\ length (files_list dr' filename folder_id)
        = Nat.max 1 (length (files_list dr filename folder_id))
     /\ exists f rest,
          files_list dr' filename folder_id = f :: rest /\ df_content f = content
          /\ match files_list dr filename folder_id with
             | [] => True
             | f0 :: _ => df_id f = df_id f0
             end)
  /\ (forall content filename folder_id dr,
        files_list dr filename folder_id = [] ->
        let '(r1, dr1) := upload_to_drive true content filename folder_id dr in
        let '(r2, dr2) := upload_to_drive true content filename folder_id dr1 in
        option_map ur_action r1 = Some "created" /\ option_map ur_action r2 = Some "updated"
        /\ length (files_list dr2 filename folder_id) = 1).
Proof.
  split.
  - intros grant_ok content filename folder_id dr. simpl.
    rewrite upload_files. split; [|split].
    + intros ->. destruct (upload_action content filename folder_id dr) as (res & -> & Ha).
      simpl. rewrite Ha. reflexivity.
    + destruct (files_list dr filename folder_id) as [|f fs] eqn:E.
      * rewrite files_list_create, E. reflexivity.
      * rewrite files_list_update, E. simpl. rewrite length_map. lia.
    + destruct (files_list dr filename folder_id) as [|f fs] eqn:E.
      * rewrite files_list_create, E. simpl. eauto.
      * rewrite files_list_update, E. simpl.
        destruct (update_content_same (df_id f) content f eq_refl) as [Hc Hi].
        eauto.
  - intros content filename folder_id dr H0.
    destruct (upload_to_drive true content filename folder_id dr) as [r1 dr1] eqn:E1.
    destruct (upload_to_drive true content filename folder_id dr1) as [r2 dr2] eqn:E2.
    assert (Hf1 := upload_files true content filename folder_id dr).
    rewrite E1, H0, files_list_create, H0 in Hf1. simpl in Hf1.
    destruct (upload_action content filename folder_id dr) as (a1 & Ha1 & Hx1).
    destruct (upload_action content filename folder_id dr1) as (a2 & Ha2 & Hx2).
    rewrite E1 in Ha1. rewrite E2 in Ha2. simpl in Ha1, Ha2. subst r1 r2.
    rewrite H0 in Hx1. rewrite Hf1 in Hx2. simpl. rewrite Hx1, Hx2.
    split; [reflexivity|split; [reflexivity|]].
    assert (Hf2 := upload_files true content filename folder_id dr1).
    rewrite E2, Hf1 in Hf2. simpl in Hf2. rewrite Hf2, files_list_update, Hf1. reflexivity.
Qed.

(** C8 (the code at a failing grant): when the access grant fails,
    [upload_to_drive] raises, so no action or reference is returned, while
    the uploaded file stays in Drive with the new content; the Drive sync
    then reports a failure, which the unchanged-payload branch answers
    with status 500. *)
Theorem C8_grant_failure_fails_upload :
  (forall content filename folder_id dr,
     fst (upload_to_drive false content filename folder_id dr) = None
     /\ exists f, In f (files_list (snd (upload_to_drive false content filename folder_id dr))
                                  filename folder_id)
                  /\ df_content f = content)
  /\ (forall loads kmls s, fst (sync_to_drive_internal loads kmls false s) = None).
Proof.
  split.
  - intros content filename folder_id dr. split.
    + unfold upload_to_drive. destruct (files_list dr filename folder_id); reflexivity.
    + rewrite upload_files.
      destruct (files_list dr filename folder_id) as [|f fs] eqn:E.
      * rewrite files_list_create, E. simpl. eauto.
      * rewrite files_list_update, E. simpl.
        destruct (update_content_same (df_id f) content f eq_refl) as [Hc _]. eauto.
  - intros loads kmls s. unfold sync_to_drive_internal.
    destruct (st_geojson s) as [txt|]; [|reflexivity].
    destruct (loads txt) as [gj|]; [|reflexivity].
    destruct (_ <- py_get gj "features" (PList []) ;; py_len _) as [fc|]; [|reflexivity].
    destruct (geojson_to_kml gj) as [k|]; [|reflexivity].
    unfold upload_to_drive.
    destruct (files_list (st_drive s) KML_FILENAME (Some DRIVE_FOLDER_ID)); reflexivity.
Qed.

(** The failing input of C8: the first upload of the KML file, grant refused. *)
Example C8_failing_input :
  upload_to_drive false "<kml/>" KML_FILENAME (Some DRIVE_FOLDER_ID) empty_drive
  = (None,
     {| dr_files := [{| df_id := "file0"; df_name := KML_FILENAME; df_mimeType := KML_MIME;
                        df_parents := [DRIVE_FOLDER_ID]; df_trashed := false;
                        df_content := "<kml/>" |}];
        dr_next_id := 1; dr_permissions := [] |}).
Proof. reflexivity. Qed.


(** C9 (counterexample): two overlapping zones; a point strictly inside the
    second one is answered with the metadata of the first. *)
Lemma C9_overlap_returns_first :
  @interior GridShapely (zf_geometry zoneB) (0, 0)%Z = true
  /\ In zoneB [zoneA; zoneB]
  /\ matched_zone (query [zoneA; zoneB] (0, 0)%Z) = Some zoneA
  /\ zf_properties zoneA <> zf_properties zoneB.
Proof.
  split; [reflexivity|]. split; [right; left; reflexivity|].
  split; [reflexivity|]. discriminate.
Qed.

Lemma find_zone_spec {G : Shapely} (zones : list ZoneFeature) (c : coord) :
  match find_zone zones c with
  | Some z => covers (zf_geometry z) c = true
              /\ exists pre post, zones = (pre ++ z :: post)%list
                                  /\ Forall (fun z' => covers (zf_geometry z') c = false) pre
  | None => Forall (fun z' => covers (zf_geometry z') c = false) zones
  end.
Proof.
  induction zones as [|z zs IH]; simpl; [constructor|].
  destruct (covers (zf_geometry z) c) eqn:E.
  - split; [exact E|]. exists [], zs. split; [reflexivity|constructor].
  - destruct (find_zone zs c) as [z'|].
    + destruct IH as (Hc & pre & post & -> & Hpre).
      split; [exact Hc|]. exists (z :: pre), post. split; [reflexivity|constructor; assumption].
    + constructor; assumption.
Qed.

(** C9 (amended): the query scans the zones in order and answers the first
    zone whose geometry covers the point (boundary included), with
    [in_no_swim_zone = true], or no zone and [false] when none covers it.  A
    point strictly inside a zone is always answered with
    [in_no_swim_zone = true], and with that zone when no earlier zone
    covers the point. *)
Theorem C9_first_covering_zone :
  forall (G : Shapely)
    (interior_covered : forall g c, interior g c = true -> covers g c = true)
    (zones : list ZoneFeature) (c : coord),
    (forall z, matched_zone (query zones c) = Some z ->
       in_no_swim_zone (query zones c) = true /\ covers (zf_geometry z) c = true
       /\ exists pre post, zones = (pre ++ z :: post)%list
                           /\ Forall (fun z' => covers (zf_geometry z') c = false) pre)
    /\ (matched_zone (query zones c) = None ->
        in_no_swim_zone (query zones c) = false
        /\ Forall (fun z' => covers (zf_geometry z') c = false) zones)
    /\ (forall z, In z zones -> interior (zf_geometry z) c = true ->
        in_no_swim_zone (query zones c) = true)
    /\ (forall pre z post, zones = (pre ++ z :: post)%list ->
        interior (zf_geometry z) c = true ->
        Forall (fun z' => covers (zf_geometry z') c = false) pre ->
        query zones c = {| in_no_swim_zone := true; matched_zone := Some z;
                           compliance_status := derive_compliance (zf_properties z) |}).
Proof.
  intros G Hic zones c.
  assert (Hs := find_zone_spec zones c). unfold query.
  split; [|split; [|split]].
  - destruct (find_zone zones c) as [z'|]; simpl; intros z H; [|discriminate].
    injection H as <-. destruct Hs as (Hc & Hpre). auto.
  - destruct (find_zone zones c) as [z'|]; simpl; intros H; [discriminate|]. auto.
  - intros z Hin Hi. destruct (find_zone zones c) as [z'|]; simpl; [reflexivity|].
    rewrite Forall_forall in Hs. specialize (Hs z Hin). simpl in Hs.
    rewrite (Hic _ _ Hi) in Hs. discriminate.
  - intros pre z post -> Hi Hpre. clear Hs.
    assert (Hf : find_zone (pre ++ z :: post) c = Some z).
    { induction pre as [|z0 pre IH]; simpl.
      - rewrite (Hic _ _ Hi). reflexivity.
      - inversion Hpre as [|? ? H0 Hrest]; subst. rewrite H0. apply IH. exact Hrest. }
    rewrite Hf. reflexivity.
Qed.

Lemma grid_interior_covered :
  forall g c, @interior GridShapely g c = true -> @covers GridShapely g c = true.
Proof.
  simpl. intros g c H. unfold grid_interior in H.
  rewrite !andb_true_iff in H. tauto.
Qed.

(** Witness of C9: the overlapping zones, queried at their common centre. *)
Lemma C9_first_covering_zone_witness :
  in_no_swim_zone (query [zoneA; zoneB] (0, 0)%Z) = true.
Proof.
  destruct (C9_first_covering_zone GridShapely grid_interior_covered [zoneA; zoneB] (0, 0)%Z)
    as (_ & _ & H & _).
  apply (H zoneB); [right; left; reflexivity | reflexivity].
Defined.

Lemma feature_placemarks_geometry fd gd pms :
  dget fd "geometry" (PDict []) = PDict gd ->
  feature_placemarks (PDict fd) = Some pms ->
  exists location description color,
    geometry_placemarks (dget gd "type" PNone) (dget gd "coordinates" (PList []))
                        location description color = Some pms.
Proof.
  intros Hg H. unfold feature_placemarks in H. simpl in H. rewrite Hg in H. simpl in H.
  destruct (dget fd "properties" (PDict [])) as [| | | | |pd]; try discriminate.
  simpl in H. eauto.
Qed.

Lemma features_placemarks_inner fs pms :
  features_placemarks fs = Some pms -> Forall (fun p => kp_innerboundaryis p = []) pms.
Proof.
  revert pms. induction fs as [|f fs IH]; intros pms H; simpl in H.
  - injection H as <-. constructor.
  - destruct (feature_placemarks f) as [pf|] eqn:Ef; [|discriminate].
    destruct (features_placemarks fs) as [pfs|] eqn:Efs; [|discriminate].
    injection H as <-. apply Forall_app. split; [|exact (IH _ eq_refl)].
    unfold feature_placemarks in Ef.
    repeat match type of Ef with
           | context [match ?x with Some _ => _ | None => _ end] => destruct x
           end; try discriminate.
    eapply Forall_impl; [|exact (geometry_placemarks_style _ _ _ _ _ _ Ef)]. intros q (_ & _ & Hi); exact Hi.
Qed.

Lemma multipolygon_parts_outer location description color i parts pms :
  multipolygon_parts location description color i parts = Some pms ->
  Forall2 (fun part p => exists outer oc, py_index part 0 = Some outer
                                          /\ kml_coords_of outer = Some oc
                                          /\ kp_outerboundaryis p = oc
                                          /\ kp_innerboundaryis p = []) parts pms.
Proof.
  revert i pms. induction parts as [|pg rest IH]; intros i pms H; simpl in H.
  - injection H as <-. constructor.
  - destruct (py_index pg 0) as [coords|] eqn:E1; [|discriminate].
    destruct (kml_coords_of coords) as [kc|] eqn:E2; [|discriminate].
    destruct (multipolygon_parts location description color (S i) rest) as [ps|] eqn:E;
      [|discriminate].
    injection H as <-. constructor; [|exact (IH _ _ E)]. exists coords, kc. auto.
Qed.

(** C10: the KML conversion never emits an inner boundary.  A Polygon
    feature with rings [outer :: holes] gives one placemark whose outer
    boundary is [outer], whatever the holes; a MultiPolygon gives one
    placemark per part, bounded by the part's first ring.  Hence the KML
    shape covers every point of the GeoJSON polygon. *)
Theorem C10_kml_outer_rings_only :
  (forall gj pms, geojson_to_kml gj = Some pms ->
     Forall (fun p => kp_innerboundaryis p = []) pms)
  /\ (forall fd gd outer holes pms,
        dget fd "geometry" (PDict []) = PDict gd ->
        dget gd "type" PNone = PStr "Polygon" ->
        dget gd "coordinates" (PList []) = PList (outer :: holes) ->
        feature_placemarks (PDict fd) = Some pms ->
        exists oc, kml_coords_of outer = Some oc
                   /\ map kp_outerboundaryis pms = [oc]
                   /\ map kp_innerboundaryis pms = [[]])
  /\ (forall fd gd parts pms,
        dget fd "geometry" (PDict []) = PDict gd ->
        dget gd "type" PNone = PStr "MultiPolygon" ->
        dget gd "coordinates" (PList []) = PList parts ->
        feature_placemarks (PDict fd) = Some pms ->
        Forall2 (fun part p => exists outer oc, py_index part 0 = Some outer
                                                /\ kml_coords_of outer = Some oc
                                                /\ kp_outerboundaryis p = oc
                                                /\ kp_innerboundaryis p = []) parts pms)
  /\ (forall (C : Type) (in_ring : list (pyval * pyval) -> C -> bool) p holes c,
        kp_innerboundaryis p = [] ->
        geojson_polygon_covers in_ring (kp_outerboundaryis p :: holes) c = true ->
        kml_polygon_covers in_ring p c = true).
Proof.
  split; [|split; [|split]].
  - intros gj pms H. unfold geojson_to_kml in H.
    destruct (py_get gj "features" (PList [])) as [features|]; [|discriminate].
    destruct (py_iter features) as [fs|]; [|discriminate].
    exact (features_placemarks_inner fs pms H).
  - intros fd gd outer holes pms Hg Ht Hc H.
    destruct (feature_placemarks_geometry fd gd pms Hg H) as (loc & desc & col & Hp).
    rewrite Ht, Hc in Hp. simpl in Hp.
    destruct (kml_coords_of outer) as [oc|]; [|discriminate].
    injection Hp as <-. exists oc. auto.
  - intros fd gd parts pms Hg Ht Hc H.
    destruct (feature_placemarks_geometry fd gd pms Hg H) as (loc & desc & col & Hp).
    rewrite Ht, Hc in Hp. simpl in Hp.
    exact (multipolygon_parts_outer _ _ _ _ _ _ Hp).
  - intros C in_ring p holes c Hi H. unfold kml_polygon_covers. rewrite Hi. simpl.
    simpl in H. apply andb_true_iff in H as [H _]. rewrite H. reflexivity.
Qed.

(** ** Further properties of the code *)

Lemma dget_absent d k def : dict_getitem d k = None -> dget d k def = def.
Proof.
  induction d as [|[k' v] d IH]; simpl; [reflexivity|].
  destruct (String.eqb k k'); [discriminate|exact IH].
Qed.

Lemma dget_present d k def v : dict_getitem d k = Some v -> dget d k def = v.
Proof.
  induction d as [|[k' v'] d IH]; simpl; [discriminate|].
  destruct (String.eqb k k'); [congruence|exact IH].
Qed.

Lemma shapes_some {G : Shapely} (shape : pyval -> option geom) fs gs :
  shapes shape fs = Some gs ->
  Forall2 (fun f g => exists gj, py_getitem f "geometry" = Some gj /\ shape gj = Some g) fs gs.
Proof.
  revert gs. induction fs as [|f fs IH]; intros gs H; simpl in H.
  - injection H as <-. constructor.
  - destruct (py_getitem f "geometry") as [gj|] eqn:E1; [|discriminate].
    destruct (shape gj) as [g|] eqn:E2; [|discriminate].
    destruct (shapes shape fs) as [rest|]; [|discriminate].
    injection H as <-. constructor; eauto.
Qed.

Lemma shapes_missing {G : Shapely} (shape : pyval -> option geom) fs f :
  In f fs -> py_getitem f "geometry" = None -> shapes shape fs = None.
Proof.
  induction fs as [|f' fs IH]; simpl; [contradiction|].
  intros [<-|Hin] Hf.
  - rewrite Hf. reflexivity.
  - destruct (py_getitem f' "geometry"); [|reflexivity].
    destruct (shape p); [|reflexivity]. rewrite (IH Hin Hf). reflexivity.
Qed.

(** [load_perifereies_data] (main.py): a failed download, a payload that is
    not JSON or whose top level is not a dict gives [None]; a dict with no
    ["features"] gives no region; otherwise the regions are the shapes of the
    features' geometries, in order, and a feature without ["geometry"] makes
    the whole load fail. *)
Theorem load_perifereies_data_behaviour :
  forall (G : Shapely) (json_loads : string -> option pyval) (shape : pyval -> option geom),
    load_perifereies_data json_loads shape None = None
    /\ (forall txt, json_loads txt = None -> load_perifereies_data json_loads shape (Some txt) = None)
    /\ (forall txt v, json_loads txt = Some v -> (forall d, v <> PDict d) ->
          load_perifereies_data json_loads shape (Some txt) = None)
    /\ (forall txt d, json_loads txt = Some (PDict d) -> dict_getitem d "features" = None ->
          load_perifereies_data json_loads shape (Some txt) = Some [])
    /\ (forall txt d fs gs, json_loads txt = Some (PDict d) ->
          dict_getitem d "features" = Some (PList fs) ->
          load_perifereies_data json_loads shape (Some txt) = Some gs ->
          Forall2 (fun f g => exists gj, py_getitem f "geometry" = Some gj /\ shape gj = Some g) fs gs)
    /\ (forall txt d fs f, json_loads txt = Some (PDict d) ->
          dict_getitem d "features" = Some (PList fs) ->
          In f fs -> py_getitem f "geometry" = None ->
          load_perifereies_data json_loads shape (Some txt) = None).
Proof.
  intros G json_loads shape. unfold load_perifereies_data.
  split; [reflexivity|]. split; [intros txt H; simpl; rewrite H; reflexivity|].
  split; [|split; [|split]].
  - intros txt v H Hv. simpl. rewrite H.
    destruct v as [| | | | |d]; try reflexivity. exfalso. exact (Hv d eq_refl).
  - intros txt d H Hf. simpl. rewrite H. simpl. rewrite (dget_absent _ _ _ Hf). reflexivity.
  - intros txt d fs gs H Hf Hl. simpl in Hl. rewrite H in Hl. simpl in Hl.
    rewrite (dget_present _ _ _ _ Hf) in Hl. simpl in Hl. exact (shapes_some shape fs gs Hl).
  - intros txt d fs f H Hf Hin Hg. simpl. rewrite H. simpl.
    rewrite (dget_present _ _ _ _ Hf). simpl. exact (shapes_missing shape fs f Hin Hg).
Qed.

(** A changed payload that is neither a list nor a dict with ["features"]
    yields no zone in [check_for_changes]; the run answers 200 'No zones
    saved.' and commits its hash, so the malformed payload is never
    re-analysed. *)
Theorem malformed_payload_commits_hash :
  forall (G : Shapely) dig dumps loads kmls (env : Env) (s : Store) p regs u,
    e_fetch env = Some p ->
    (e_hash_read_ok env = false \/ st_hash s <> Some (dig p)) ->
    match p with PList _ => False | PDict d => dict_getitem d "features" = None | _ => True end ->
    e_regions env = Some regs -> regs <> [] -> cascaded_union regs = Some u ->
    e_put_hash_ok env = true ->
    check_for_changes dig dumps loads kmls env s
    = (("Analysis complete. No zones saved.", 200%Z), set_hash s (dig p),
       [EvLoadRegions; EvCalculated 0; EvPutHash]).
Proof.
  intros G dig dumps loads kmls env s p regs u Hf Hn Hp Hr Hne Hu Hh.
  unfold check_for_changes. rewrite Hf, (unchanged_false _ _ _ Hn), Hr.
  assert (Hc : calculate_new_zones regs p = Some []).
  { unfold calculate_new_zones. destruct regs as [|r rs]; [contradiction|]. rewrite Hu.
    destruct p as [| | | | |d]; try reflexivity; [contradiction|].
    simpl. replace (existsb (fun kv => String.eqb (fst kv) "features") d) with false; [reflexivity|].
    clear -Hp. induction d as [|[k v] d IH]; [reflexivity|].
    cbn [dict_getitem] in Hp. cbn [existsb fst].
    destruct (String.eqb "features" k) eqn:E; [discriminate Hp|].
    rewrite String.eqb_sym, E. exact (IH Hp). }
  rewrite Hc, Hh. reflexivity.
Qed.

Lemma malformed_payload_commits_hash_witness :
  grid_run env_malformed empty_store
  = (("Analysis complete. No zones saved.", 200%Z),
     set_hash empty_store (grid_digest (PDict [("error", PStr "unavailable")])),
     [EvLoadRegions; EvCalculated 0; EvPutHash]).
Proof.
  apply (malformed_payload_commits_hash GridShapely grid_digest grid_dumps grid_loads grid_kml_string
           env_malformed empty_store (PDict [("error", PStr "unavailable")]) [[(100, 100)%Z]]
           [(100, 100)%Z]); try reflexivity.
  - right. discriminate.
  - discriminate.
Defined.

Lemma process_all_strs {G : Shapely} u plants :
  Forall (fun p => exists x, p = PStr x) plants -> process_all u plants = [].
Proof.
  induction plants as [|p ps IH]; intros H; [reflexivity|].
  inversion H as [|? ? (x & ->) Hps]; subst. simpl. exact (IH Hps).
Qed.

Lemma dict_getitem_existsb d k v :
  dict_getitem d k = Some v -> existsb (fun kv => String.eqb (fst kv) k) d = true.
Proof.
  induction d as [|[k' v'] d IH]; cbn [dict_getitem]; [discriminate|].
  cbn [existsb fst]. rewrite (String.eqb_sym k k').
  destruct (String.eqb k' k); [reflexivity|]. exact IH.
Qed.

(** [calculate_new_zones] on a dict payload is decided by the type of its
    ["features"] value: a list is processed plant by plant; a str or a dict
    is iterated by characters or by keys, each a str on which [.get] raises,
    so every item is skipped and no zone is computed; a number, a bool or
    None is not iterable, and the analysis raises. *)
Theorem calculate_new_zones_features_value :
  forall (G : Shapely) regs u d v,
    regs <> [] -> cascaded_union regs = Some u ->
    dict_getitem d "features" = Some v ->
    calculate_new_zones regs (PDict d)
    = match v with
      | PList plants => Some (process_all u plants)
      | PStr _ | PDict _ => Some []
      | _ => None
      end.
Proof.
  intros G regs u d v Hne Hu Hv.
  unfold calculate_new_zones. destruct regs as [|r rs]; [contradiction|]. rewrite Hu.
  unfold features_to_process. rewrite (dict_getitem_existsb d "features" v Hv).
  rewrite (dget_present d "features" PNone v Hv).
  destruct v as [| | |str|plants|d']; try reflexivity; cbn [py_iter]; f_equal;
    apply process_all_strs; apply Forall_forall; intros p Hp; apply in_map_iff in Hp;
    destruct Hp as (x & <- & _); eauto.
Qed.

Lemma calculate_new_zones_features_value_witness :
  @calculate_new_zones GridShapely [[(100, 100)%Z]] (PDict [("features", PStr "A1")]) = Some []
  /\ @calculate_new_zones GridShapely [[(100, 100)%Z]] (PDict [("features", PNum 5)]) = None.
Proof.
  split.
  - exact (calculate_new_zones_features_value GridShapely [[(100, 100)%Z]] _
             [("features", PStr "A1")] (PStr "A1") ltac:(discriminate) eq_refl eq_refl).
  - exact (calculate_new_zones_features_value GridShapely [[(100, 100)%Z]] _
             [("features", PNum 5)] (PNum 5) ltac:(discriminate) eq_refl eq_refl).
Defined.

(** A feature emitted by the pipeline converts to the placemarks of its
    geometry, named after the plant's [name], described by its [name], [code]
    and [receiverName], and styled by [is_compliant] (absent: compliant). *)
Theorem zone_feature_kml :
  forall (G : Shapely) (dz : geom) props gd,
    mapping dz = PDict gd ->
    feature_placemarks (zone_feature dz props)
    = geometry_placemarks (dget gd "type" PNone) (dget gd "coordinates" (PList []))
        (dget props "name" PNone)
        (mkDescription (dget props "name" PNone) (dget props "code" PNone)
           (dget props "receiverName" PNone)
           (compliance_text (dget props "is_compliant" (PBool true)))
           (PStr ("Code: " ++ py_str (dget props "code" PNone)
                  ++ ". Receiver: " ++ py_str (dget props "receiverName" PNone))))
        (compliance_color (dget props "is_compliant" (PBool true))).
Proof.
  intros G dz props gd H. unfold feature_placemarks, zone_feature. cbn [py_get dget].
  rewrite H. reflexivity.
Qed.

Lemma zone_feature_kml_witness :
  feature_placemarks (@zone_feature GridShapely [(0, 0)%Z] [("name", PStr "A1")])
  = geometry_placemarks (PStr "MultiPoint") (PList [PList [PNum 0; PNum 0]]) (PStr "A1")
      (mkDescription (PStr "A1") PNone PNone "✓ Compliant" (PStr "Code: None. Receiver: None"))
      Color_blue_alpha150.
Proof.
  exact (zone_feature_kml GridShapely [(0, 0)%Z] [("name", PStr "A1")] _ eq_refl).
Defined.

Lemma multipolygon_parts_names location description color i parts pms :
  multipolygon_parts location description color i parts = Some pms ->
  map kp_name pms
  = map (fun j => PStr (py_str location ++ " Part " ++ nat_to_string j)) (seq (S i) (length parts)).
Proof.
  revert i pms. induction parts as [|pg rest IH]; intros i pms H; simpl in H.
  - injection H as <-. reflexivity.
  - destruct (py_index pg 0) as [coords|]; [|discriminate].
    destruct (kml_coords_of coords) as [kc|]; [|discriminate].
    destruct (multipolygon_parts location description color (S i) rest) as [ps|] eqn:E;
      [|discriminate].
    injection H as <-. simpl. f_equal. exact (IH _ _ E).
Qed.

(** The geometry dispatch of [geojson_to_kml]: a Polygon gives one placemark
    named [location], a MultiPolygon gives one per part named
    'location Part i' for i = 1..n, any other type gives none. *)
Theorem geometry_placemarks_dispatch :
  forall geom_type coordinates location description color pms,
    geometry_placemarks geom_type coordinates location description color = Some pms ->
    (geom_type = PStr "Polygon" -> map kp_name pms = [location])
    /\ (geom_type = PStr "MultiPolygon" ->
        exists parts, py_iter coordinates = Some parts
          /\ map kp_name pms
             = map (fun j => PStr (py_str location ++ " Part " ++ nat_to_string j))
                   (seq 1 (length parts)))
    /\ (geom_type <> PStr "Polygon" -> geom_type <> PStr "MultiPolygon" -> pms = []).
Proof.
  intros geom_type coordinates location description color pms H.
  split; [|split].
  - intros ->. simpl in H.
    destruct (py_index coordinates 0) as [coords|]; [|discriminate].
    destruct (kml_coords_of coords) as [kc|]; [|discriminate].
    injection H as <-. reflexivity.
  - intros ->. simpl in H.
    destruct (py_iter coordinates) as [parts|]; [|discriminate].
    exists parts. split; [reflexivity|]. exact (multipolygon_parts_names _ _ _ _ _ _ H).
  - intros H1 H2. unfold geometry_placemarks in H.
    destruct geom_type as [| | |t| |]; try (injection H as <-; reflexivity).
    destruct (String.eqb t "Polygon") eqn:E1;
      [apply String.eqb_eq in E1; subst; contradiction|].
    destruct (String.eqb t "MultiPolygon") eqn:E2;
      [apply String.eqb_eq in E2; subst; contradiction|].
    injection H as <-. reflexivity.
Qed.

Lemma geometry_placemarks_dispatch_witness :
  option_map (map kp_name)
    (geometry_placemarks (PStr "MultiPolygon") two_squares (PStr "A1")
       (mkDescription PNone PNone PNone "✓ Compliant" PNone) Color_blue_alpha150)
  = Some [PStr "A1 Part 1"; PStr "A1 Part 2"].
Proof.
  destruct (geometry_placemarks (PStr "MultiPolygon") two_squares (PStr "A1")
              (mkDescription PNone PNone PNone "✓ Compliant" PNone) Color_blue_alpha150)
    as [pms|] eqn:E; [|discriminate E].
  destruct (geometry_placemarks_dispatch _ _ _ _ _ _ E) as (_ & H & _).
  destruct (H eq_refl) as (parts & Hp & Hn). simpl. rewrite Hn.
  injection Hp as <-. reflexivity.
Defined.

(** The error and edge behaviour of [geojson_to_kml]: the conversion fails
    exactly when one feature fails; a dict without ["features"] gives no
    placemark; a list at top level fails; a geometry that is not a dict
    fails; a geometry without a type gives no placemark; a Polygon with no
    ring fails. *)
Theorem geojson_to_kml_edges :
  (forall fs, features_placemarks fs = None <-> exists f, In f fs /\ feature_placemarks f = None)
  /\ (forall d, dict_getitem d "features" = None -> geojson_to_kml (PDict d) = Some [])
  /\ (forall l, geojson_to_kml (PList l) = None)
  /\ (forall fd, (forall gd, dget fd "geometry" (PDict []) <> PDict gd) ->
        feature_placemarks (PDict fd) = None)
  /\ (forall fd gd pd, dget fd "geometry" (PDict []) = PDict gd ->
        dget fd "properties" (PDict []) = PDict pd ->
        dict_getitem gd "type" = None -> feature_placemarks (PDict fd) = Some [])
  /\ (forall fd gd, dget fd "geometry" (PDict []) = PDict gd ->
        dget gd "type" PNone = PStr "Polygon" -> dget gd "coordinates" (PList []) = PList [] ->
        feature_placemarks (PDict fd) = None).
Proof.
  split; [|split; [|split; [|split; [|split]]]].
  - induction fs as [|f fs IH]; simpl.
    + split; [discriminate|]. intros (f & [] & _).
    + destruct IH as [IH1 IH2].
      destruct (feature_placemarks f) as [pf|] eqn:Ef.
      * split.
        -- intros H. assert (Hn : features_placemarks fs = None)
             by (destruct (features_placemarks fs); [discriminate H|reflexivity]).
           destruct (IH1 Hn) as (f' & Hin & Hf'). eauto.
        -- intros (f' & [<-|Hin] & Hf'); [congruence|].
           rewrite (IH2 (ex_intro _ f' (conj Hin Hf'))). reflexivity.
      * split; [|reflexivity]. intros _. eauto.
  - intros d H. unfold geojson_to_kml. simpl. rewrite (dget_absent d "features" (PList []) H). reflexivity.
  - reflexivity.
  - intros fd Hg. unfold feature_placemarks. simpl.
    destruct (dget fd "geometry" (PDict [])) as [| | | | |gd]; try reflexivity.
    exfalso. exact (Hg gd eq_refl).
  - intros fd gd pd Hg Hp Ht. unfold feature_placemarks. simpl. rewrite Hg, Hp. simpl.
    rewrite (dget_absent gd "type" PNone Ht). reflexivity.
  - intros fd gd Hg Ht Hc. unfold feature_placemarks. simpl. rewrite Hg. simpl.
    destruct (dget fd "properties" (PDict [])) as [| | | | |pd]; try reflexivity.
    simpl. rewrite Ht, Hc. reflexivity.
Qed.

Lemma upload_dr_files grant_ok content filename folder_id dr :
  dr_files (snd (upload_to_drive grant_ok content filename folder_id dr))
  = match files_list dr filename folder_id with
    | f0 :: _ => map (update_content (df_id f0) content) (dr_files dr)
    | [] => dr_files (files_create dr filename folder_id content)
    end.
Proof.
  unfold upload_to_drive.
  destruct (files_list dr filename folder_id) as [|f fs]; destruct grant_ok; reflexivity.
Qed.

Lemma files_list_in dr filename folder_id f :
  In f (files_list dr filename folder_id) -> In f (dr_files dr).
Proof. unfold files_list. intros H. apply filter_In in H. tauto. Qed.

(** [upload_to_drive] touches only the file it targets: every other file is
    kept, the number of files grows by one on create and is unchanged on
    update, and the updated file keeps its id, name, type, parents and
    trashed flag with the new content. *)
Theorem upload_to_drive_frame :
  forall grant_ok content filename folder_id dr,
    let dr' := snd (upload_to_drive grant_ok content filename folder_id dr) in
    (forall f, In f (dr_files dr) ->
       match files_list dr filename folder_id with
       | [] => True
       | f0 :: _ => df_id f <> df_id f0
       end ->
       In f (dr_files dr'))
    /\ length (dr_files dr')
       = length (dr_files dr) + match files_list dr filename folder_id with [] => 1 | _ => 0 end
    /\ (forall f0 rest f, files_list dr filename folder_id = f0 :: rest ->
          In f (dr_files dr) -> df_id f = df_id f0 ->
          In {| df_id := df_id f; df_name := df_name f; df_mimeType := df_mimeType f;
                df_parents := df_parents f; df_trashed := df_trashed f;
                df_content := content |} (dr_files dr')).
Proof.
  intros grant_ok content filename folder_id dr dr'. subst dr'.
  rewrite upload_dr_files. split; [|split].
  - intros f Hin Hne. destruct (files_list dr filename folder_id) as [|f0 fs].
    + simpl. apply in_or_app. left. exact Hin.
    + assert (E : update_content (df_id f0) content f = f).
      { unfold update_content. destruct (String.eqb (df_id f) (df_id f0)) eqn:E; [|reflexivity].
        apply String.eqb_eq in E. contradiction. }
      rewrite <- E. apply in_map. exact Hin.
  - destruct (files_list dr filename folder_id) as [|f0 fs].
    + simpl. rewrite length_app. simpl. lia.
    + rewrite length_map. lia.
  - intros f0 rest f Hl Hin Hid. rewrite Hl.
    replace {| df_id := df_id f; df_name := df_name f; df_mimeType := df_mimeType f;
               df_parents := df_parents f; df_trashed := df_trashed f; df_content := content |}
      with (update_content (df_id f0) content f).
    + apply in_map. exact Hin.
    + unfold update_content. rewrite Hid, String.eqb_refl. reflexivity.
Qed.

Lemma upload_to_drive_frame_witness :
  In {| df_id := "file0"; df_name := KML_FILENAME; df_mimeType := KML_MIME;
        df_parents := [DRIVE_FOLDER_ID]; df_trashed := false; df_content := "<kml>2</kml>" |}
     (dr_files (snd (upload_to_drive true "<kml>2</kml>" KML_FILENAME (Some DRIVE_FOLDER_ID)
                      (snd (upload_to_drive true "<kml>1</kml>" KML_FILENAME
                              (Some DRIVE_FOLDER_ID) empty_drive))))).
Proof.
  destruct (upload_to_drive_frame true "<kml>2</kml>" KML_FILENAME (Some DRIVE_FOLDER_ID)
              (snd (upload_to_drive true "<kml>1</kml>" KML_FILENAME (Some DRIVE_FOLDER_ID)
                      empty_drive))) as (_ & _ & H).
  exact (H _ [] {| df_id := "file0"; df_name := KML_FILENAME; df_mimeType := KML_MIME;
                   df_parents := [DRIVE_FOLDER_ID]; df_trashed := false;
                   df_content := "<kml>1</kml>" |} eq_refl (or_introl eq_refl) eq_refl).
Defined.

(** When the grant succeeds, [upload_to_drive] returns the id of the first
    matching file (or the fresh id on create), records the public reader
    permission for that id, and on update builds the view link from the id;
    an empty folder id is the same as no folder. *)
Theorem upload_to_drive_grant_and_link :
  (forall content filename folder_id dr,
     let '(r, dr') := upload_to_drive true content filename folder_id dr in
     exists res, r = Some res
       /\ ur_file_id res = match files_list dr filename folder_id with
                           | f0 :: _ => df_id f0
                           | [] => fresh_file_id dr
                           end
       /\ In (ur_file_id res, "anyone", "reader") (dr_permissions dr')
       /\ (files_list dr filename folder_id <> [] ->
           ur_web_link res = "https://drive.google.com/file/d/" ++ ur_file_id res ++ "/view"))
  /\ (forall grant_ok content filename dr,
        upload_to_drive grant_ok content filename (Some "") dr
        = upload_to_drive grant_ok content filename None dr).
Proof.
  split.
  - intros content filename folder_id dr. unfold upload_to_drive.
    destruct (files_list dr filename folder_id) as [|f0 fs]; simpl;
      (eexists; split; [reflexivity|]; split; [reflexivity|]; split;
       [apply in_or_app; right; left; reflexivity|]).
    + intros H. contradiction.
    + intros _. reflexivity.
  - intros grant_ok content filename dr. reflexivity.
Qed.

Lemma sync_result_no_action fc res : py_getitem (sync_result fc res) "action" = None.
Proof. reflexivity. Qed.

(** The dict returned by [sync_to_drive_internal] has no ["action"] key, so
    [drive_result['action']] raises [KeyError]: the unchanged-payload branch
    always answers 500 and the main branch always reports that the KML sync
    failed on 'action', with 200. *)
Theorem sync_action_key_error :
  forall json_loads kml_to_string sync_error grant_ok s,
    let r := fst (sync_to_drive_internal json_loads kml_to_string grant_ok s) in
    snd (unchanged_sync_response sync_error r) = 500%Z
    /\ snd (changed_sync_response sync_error r) = 200%Z
    /\ (forall d, r = Some d ->
          py_getitem d "action" = None
          /\ unchanged_sync_response sync_error r
             = ("No data changes. KML Drive sync failed: 'action'", 500%Z)
          /\ changed_sync_response sync_error r
             = ("Analysis complete. GeoJSON saved. KML sync failed: 'action'", 200%Z)).
Proof.
  intros json_loads kml_to_string sync_error grant_ok s r.
  assert (Hr : forall d, r = Some d -> exists fc res, d = sync_result fc res).
  { subst r. unfold sync_to_drive_internal.
    destruct (st_geojson s) as [txt|]; [|discriminate].
    destruct (json_loads txt) as [gj|]; [|discriminate].
    destruct (_ <- py_get gj "features" (PList []) ;; py_len _) as [fc|]; [|discriminate].
    destruct (geojson_to_kml gj) as [kml|]; [|discriminate].
    destruct (upload_to_drive _ _ _ _ _) as [[res|] dr]; [|discriminate].
    simpl. intros d H. injection H as <-. eauto. }
  assert (Hd : forall d, r = Some d ->
            py_getitem d "action" = None
            /\ unchanged_sync_response sync_error r
               = ("No data changes. KML Drive sync failed: 'action'", 500%Z)
            /\ changed_sync_response sync_error r
               = ("Analysis complete. GeoJSON saved. KML sync failed: 'action'", 200%Z)).
  { intros d H. destruct (Hr d H) as (fc & res & ->). rewrite H. auto. }
  split; [|split; [|exact Hd]].
  - destruct r as [d|] eqn:E; [|reflexivity].
    destruct (Hd d eq_refl) as (_ & -> & _). reflexivity.
  - destruct r as [d|] eqn:E; [|reflexivity].
    destruct (Hd d eq_refl) as (_ & _ & ->). reflexivity.
Qed.

Lemma sync_action_key_error_witness :
  unchanged_sync_response "" (fst (sync_to_drive_internal
                                     (fun _ => Some (PDict [("features", PList [])]))
                                     grid_kml_string true store_one_zone))
  = ("No data changes. KML Drive sync failed: 'action'", 500%Z).
Proof.
  destruct (sync_action_key_error (fun _ => Some (PDict [("features", PList [])])) grid_kml_string
              "" true store_one_zone) as (_ & _ & H).
  destruct (H _ eq_refl) as (_ & H1 & _). exact H1.
Defined.

(** The GeoJSON blob changes only in a run that writes it, and then holds
    the Zone Collection of the non-empty list of features computed from this
    run's payload and regions. *)
Theorem geojson_blob_written_with_computed_zones :
  forall (G : Shapely) dig dumps loads kmls (env : Env) (s : Store),
    let '(_, s', tr) := check_for_changes dig dumps loads kmls env s in
    (st_geojson s' = st_geojson s /\ ~ In EvPutGeojson tr)
    \/ exists p regs feats,
         e_fetch env = Some p /\ e_regions env = Some regs
         /\ calculate_new_zones regs p = Some feats /\ feats <> []
         /\ st_geojson s' = Some (dumps (feature_collection feats)) /\ In EvPutGeojson tr.
Proof.
  intros G dig dumps loads kmls env s. unfold check_for_changes.
  destruct (e_fetch env) as [p|] eqn:Hf; [|left; simpl; auto].
  destruct (e_hash_read_ok env && _).
  - destruct (sync_to_drive_internal _ _ _ _) as [[a|] dr]; left; simpl; intuition discriminate.
  - destruct (e_regions env) as [regs|] eqn:Hr; [|left; simpl; intuition discriminate].
    destruct (calculate_new_zones regs p) as [[|f fs]|] eqn:Hc;
      [destruct (e_put_hash_ok env); left; simpl; intuition discriminate| |
       left; simpl; intuition discriminate].
    destruct (e_put_geojson_ok env); [|left; simpl; intuition discriminate].
    destruct (e_put_hash_ok env);
      [destruct (sync_to_drive_internal _ _ _ _) as [[a|] dr]|]; simpl;
      right; exists p, regs, (f :: fs);
      (split; [reflexivity|]; split; [reflexivity|]; split; [exact Hc|];
       split; [discriminate|]; split; [reflexivity|]; auto 6).
Qed.

(** When the GeoJSON write succeeds and the hash write fails, the run answers
    500 although the new Zone Collection is stored; the hash is unchanged
    and Drive is not synced. *)
Theorem geojson_saved_but_500 :
  forall (G : Shapely) dig dumps loads kmls (env : Env) (s : Store) p regs feats,
    e_fetch env = Some p ->
    (e_hash_read_ok env = false \/ st_hash s <> Some (dig p)) ->
    e_regions env = Some regs -> calculate_new_zones regs p = Some feats -> feats <> [] ->
    e_put_geojson_ok env = true -> e_put_hash_ok env = false ->
    let '(resp, s', tr) := check_for_changes dig dumps loads kmls env s in
    resp = ("Failed to save GeoJSON results.", 500%Z)
    /\ st_geojson s' = Some (dumps (feature_collection feats))
    /\ st_hash s' = st_hash s /\ ~ In EvSync tr.
Proof.
  intros G dig dumps loads kmls env s p regs feats Hf Hn Hr Hc Hne Hg Hh.
  unfold check_for_changes. rewrite Hf, (unchanged_false _ _ _ Hn), Hr, Hc.
  destruct feats as [|f fs]; [contradiction|]. rewrite Hg, Hh. simpl.
  split; [reflexivity|]. split; [reflexivity|]. split; [reflexivity|]. intuition discriminate.
Qed.

Lemma geojson_saved_but_500_witness :
  let '(resp, _, _) := grid_run env_sea_hash_fails empty_store in
  resp = ("Failed to save GeoJSON results.", 500%Z).
Proof.
  assert (Hn : e_hash_read_ok env_sea_hash_fails = false
               \/ st_hash empty_store <> Some (grid_digest (PList [plant_at "A1" 0 0])))
    by (right; discriminate).
  assert (H := geojson_saved_but_500 GridShapely grid_digest grid_dumps grid_loads grid_kml_string
                 env_sea_hash_fails empty_store (PList [plant_at "A1" 0 0]) [[(100, 100)%Z]]
                 _ eq_refl Hn eq_refl eq_refl ltac:(discriminate) eq_refl eq_refl).
  unfold grid_run. destruct (check_for_changes _ _ _ _ _ _) as [[resp s'] tr].
  destruct H as [Hr _]. exact Hr.
Defined.

Lemma put_hash_commits (G : Shapely) dig dumps loads kmls (env : Env) (s : Store) :
  let '(_, s', tr) := check_for_changes dig dumps loads kmls env s in
  In EvPutHash tr -> exists p, e_fetch env = Some p /\ st_hash s' = Some (dig p).
Proof.
  unfold check_for_changes.
  destruct (e_fetch env) as [p|] eqn:Hf; [|simpl; tauto].
  destruct (e_hash_read_ok env && _).
  - destruct (sync_to_drive_internal _ _ _ _) as [[a|] dr]; simpl; intuition discriminate.
  - destruct (e_regions env) as [regs|]; [|simpl; intuition discriminate].
    destruct (calculate_new_zones regs p) as [[|f fs]|];
      [destruct (e_put_hash_ok env)| |simpl; intuition discriminate].
    + simpl. eauto.
    + simpl. intuition discriminate.
    + destruct (e_put_geojson_ok env); [|simpl; intuition discriminate].
      destruct (e_put_hash_ok env); [|simpl; intuition discriminate].
      destruct (sync_to_drive_internal _ _ _ _) as [[a|] dr]; simpl; eauto.
Qed.

(** After a run that commits the hash of a payload, a run on the same payload
    (with the hash readable) skips the analysis: it only calls the Drive sync
    and leaves the hash and the GeoJSON unchanged. *)
Theorem rerun_same_payload_skips :
  forall (G : Shapely) dig dumps loads kmls (env1 env2 : Env) (s : Store) p,
    e_fetch env1 = Some p -> e_fetch env2 = Some p -> e_hash_read_ok env2 = true ->
    let '(_, s1, tr1) := check_for_changes dig dumps loads kmls env1 s in
    In EvPutHash tr1 ->
    let '(_, s2, tr2) := check_for_changes dig dumps loads kmls env2 s1 in
    tr2 = [EvSync] /\ st_hash s2 = st_hash s1 /\ st_geojson s2 = st_geojson s1.
Proof.
  intros G dig dumps loads kmls env1 env2 s p Hf1 Hf2 Hr2.
  assert (Hp := put_hash_commits G dig dumps loads kmls env1 s).
  destruct (check_for_changes dig dumps loads kmls env1 s) as [[resp1 s1] tr1].
  intros Hin. destruct (Hp Hin) as (p' & Hf & Hh). rewrite Hf1 in Hf. injection Hf as <-.
  unfold check_for_changes. rewrite Hf2, Hr2, Hh, String.eqb_refl. simpl.
  destruct (sync_to_drive_internal _ _ _ _) as [[a|] dr]; simpl; auto.
Qed.

Lemma rerun_same_payload_skips_witness :
  let '(_, s1, _) := grid_run env_inland empty_store in
  snd (grid_run env_same s1) = [EvSync].
Proof.
  assert (H := rerun_same_payload_skips GridShapely grid_digest grid_dumps grid_loads
                 grid_kml_string env_inland env_same empty_store (PList [plant_at "A1" 0 0])
                 eq_refl eq_refl eq_refl).
  unfold grid_run.
  destruct (check_for_changes grid_digest grid_dumps grid_loads grid_kml_string env_inland
              empty_store) as [[resp1 s1] tr1] eqn:E1.
  assert (Hin : In EvPutHash tr1).
  { vm_compute in E1. injection E1 as _ _ <-. simpl. auto. }
  specialize (H Hin).
  destruct (check_for_changes grid_digest grid_dumps grid_loads grid_kml_string env_same s1)
    as [[resp2 s2] tr2].
  destruct H as [Htr _]. exact Htr.
Defined.

(** When the stored hash cannot be read, the run proceeds to the analysis:
    its first effect is loading the regions, even for an unchanged payload. *)
Theorem hash_read_failure_reanalyses :
  forall (G : Shapely) dig dumps loads kmls (env : Env) (s : Store) p,
    e_fetch env = Some p -> e_hash_read_ok env = false ->
    let '(_, _, tr) := check_for_changes dig dumps loads kmls env s in
    hd_error tr = Some EvLoadRegions.
Proof.
  intros G dig dumps loads kmls env s p Hf Hr.
  unfold check_for_changes. rewrite Hf, Hr. simpl.
  destruct (e_regions env) as [regs|]; [|reflexivity].
  destruct (calculate_new_zones regs p) as [[|f fs]|]; [destruct (e_put_hash_ok env)| |]; try reflexivity.
  destruct (e_put_geojson_ok env); [|reflexivity].
  destruct (e_put_hash_ok env); [|reflexivity].
  destruct (sync_to_drive_internal _ _ _ _) as [[a|] dr]; reflexivity.
Qed.

Lemma hash_read_failure_reanalyses_witness :
  let '(_, _, tr) := grid_run env_hash_unreadable store_same in
  hd_error tr = Some EvLoadRegions.
Proof.
  exact (hash_read_failure_reanalyses GridShapely grid_digest grid_dumps grid_loads grid_kml_string
           env_hash_unreadable store_same (PList [plant_at "A1" 0 0]) eq_refl eq_refl).
Defined.

(** Drive is modified only in runs that call the Drive sync. *)
Theorem drive_changes_only_by_sync :
  forall (G : Shapely) dig dumps loads kmls (env : Env) (s : Store),
    let '(_, s', tr) := check_for_changes dig dumps loads kmls env s in
    ~ In EvSync tr -> st_drive s' = st_drive s.
Proof.
  intros G dig dumps loads kmls env s. unfold check_for_changes.
  destruct (e_fetch env) as [p|]; [|simpl; auto].
  destruct (e_hash_read_ok env && _).
  - destruct (sync_to_drive_internal _ _ _ _) as [[a|] dr]; simpl; tauto.
  - destruct (e_regions env) as [regs|]; [|simpl; auto].
    destruct (calculate_new_zones regs p) as [[|f fs]|]; [destruct (e_put_hash_ok env)| |];
      simpl; auto.
    destruct (e_put_geojson_ok env); [|simpl; auto].
    destruct (e_put_hash_ok env); [|simpl; auto].
    destruct (sync_to_drive_internal _ _ _ _) as [[a|] dr]; simpl; tauto.
Qed.

Lemma gdrive_multipolygon_name_color location description color polygons items :
  GDrive.multipolygon_items location description color polygons = Some items ->
  Forall (fun it => GDrive.placemark_name it = location /\ GDrive.placemark_color it = color) items.
Proof.
  revert items. induction polygons as [|pg rest IH]; intros items H; simpl in H.
  - injection H as <-. constructor.
  - destruct (py_index pg 0) as [coords|]; [|discriminate].
    destruct (kml_coords_of coords) as [kc|]; [|discriminate].
    destruct (GDrive.multipolygon_items location description color rest) as [ps|] eqn:E;
      [|discriminate].
    injection H as <-. constructor; [simpl; auto | exact (IH _ eq_refl)].
Qed.

Lemma gdrive_geometry_name_color geom_type coordinates location description color items :
  GDrive.geometry_items geom_type coordinates location description color = Some items ->
  Forall (fun it => GDrive.placemark_name it = location /\ GDrive.placemark_color it = color) items.
Proof.
  unfold GDrive.geometry_items. intros H.
  destruct geom_type as [| | |t| |]; try (injection H as <-; constructor).
  destruct (String.eqb t "Polygon").
  - destruct (py_index coordinates 0) as [coords|]; [|discriminate].
    destruct (kml_coords_of coords) as [kc|]; [|discriminate].
    injection H as <-. repeat constructor.
  - destruct (String.eqb t "MultiPolygon").
    + destruct (py_iter coordinates) as [pgs|]; [|discriminate].
      exact (gdrive_multipolygon_name_color _ _ _ _ _ H).
    + destruct (String.eqb t "Point"); [|injection H as <-; constructor].
      destruct (py_index coordinates 0) as [x|]; [|discriminate].
      destruct (py_index coordinates 1) as [y|]; [|discriminate].
      injection H as <-. repeat constructor.
Qed.

(** The converter of geojson2kmlGDrive.py names every placemark of a feature
    by its ['location'] (default 'Unknown Location') and colours it red
    exactly when ['Column1.compliance'] is False, blue otherwise; a Point
    gives one point placemark at its first two coordinates. *)
Theorem gdrive_kml_names_styles_points :
  (forall fd pd items,
     dget fd "properties" (PDict []) = PDict pd ->
     GDrive.feature_items (PDict fd) = Some items ->
     Forall (fun it =>
               GDrive.placemark_name it = dget pd "location" (PStr "Unknown Location")
               /\ GDrive.placemark_color it
                  = (if is_False (dget pd "Column1.compliance" PNone)
                     then Color_red else Color_blue)) items)
  /\ (forall fd gd pd x y rest,
        dget fd "geometry" (PDict []) = PDict gd ->
        dget fd "properties" (PDict []) = PDict pd ->
        dget gd "type" PNone = PStr "Point" ->
        dget gd "coordinates" (PList []) = PList (x :: y :: rest) ->
        exists description,
          GDrive.feature_items (PDict fd)
          = Some [GDrive.KPoint (dget pd "location" (PStr "Unknown Location")) description [(x, y)]
                    (GDrive.compliance_color (dget pd "Column1.compliance" PNone))]).
Proof.
  split.
  - intros fd pd items Hp H. unfold GDrive.feature_items in H. simpl in H. rewrite Hp in H.
    simpl in H.
    destruct (dget fd "geometry" (PDict [])) as [| | | | |gd]; try discriminate.
    simpl in H. exact (gdrive_geometry_name_color _ _ _ _ _ _ H).
  - intros fd gd pd x y rest Hg Hp Ht Hc. unfold GDrive.feature_items. simpl.
    rewrite Hg, Hp. simpl. rewrite Ht, Hc. simpl. eexists. reflexivity.
Qed.

(** The HTTP endpoint [sync_to_drive]: OPTIONS answers 204 with the preflight
    headers and no change; any other method answers with the CORS header,
    either 200 with success or 500 with the error body; a failed grant gives
    500; a readable blob that converts with a successful grant gives 200 with
    the created or updated result. *)
Theorem gdrive_sync_to_drive_http :
  forall json_loads kml_to_string sync_error grant_ok blob dr,
    GDrive.sync_to_drive json_loads kml_to_string sync_error "OPTIONS" grant_ok blob dr
    = (GDrive.mkHttpResponse (PStr "") 204 GDrive.CORS_PREFLIGHT_HEADERS, dr)
    /\ forall method, method <> "OPTIONS" ->
       let '(resp, dr') := GDrive.sync_to_drive json_loads kml_to_string sync_error
                                                method grant_ok blob dr in
       GDrive.http_headers resp = GDrive.CORS_HEADERS
       /\ ((GDrive.http_status resp = 200%Z
            /\ py_getitem (GDrive.http_body resp) "success" = Some (PBool true))
           \/ (GDrive.http_status resp = 500%Z
               /\ GDrive.http_body resp
                  = PDict [("success", PBool false); ("error", PStr sync_error)]))
       /\ (grant_ok = false -> GDrive.http_status resp = 500%Z)
       /\ (forall txt gj fc kml,
             blob = Some txt -> json_loads txt = Some gj ->
             (features <- py_get gj "features" (PList []) ;; py_len features) = Some fc ->
             GDrive.geojson_to_kml gj = Some kml -> grant_ok = true ->
             GDrive.http_status resp = 200%Z
             /\ exists res, GDrive.http_body resp = sync_result fc res
                            /\ (ur_action res = "created" \/ ur_action res = "updated")).
Proof.
  intros json_loads kml_to_string sync_error grant_ok blob dr. split; [reflexivity|].
  intros method Hm. unfold GDrive.sync_to_drive.
  apply String.eqb_neq in Hm. rewrite Hm.
  destruct (txt <- blob ;; json_loads txt) as [gj|] eqn:Eb.
  2:{ simpl. split; [reflexivity|]. split; [right; split; reflexivity|]. split; [intros _; reflexivity|].
      intros txt gj fc kml -> Hl. simpl in Eb. congruence. }
  destruct (_ <- py_get gj "features" (PList []) ;; py_len _) as [fc|] eqn:Ec.
  2:{ simpl. split; [reflexivity|]. split; [right; split; reflexivity|]. split; [intros _; reflexivity|].
      intros txt gj' fc' kml -> Hl. simpl in Eb. rewrite Hl in Eb. injection Eb as <-.
      rewrite Ec. discriminate. }
  destruct (GDrive.geojson_to_kml gj) as [kml|] eqn:Ek.
  2:{ simpl. split; [reflexivity|]. split; [right; split; reflexivity|]. split; [intros _; reflexivity|].
      intros txt gj' fc' kml' -> Hl. simpl in Eb. rewrite Hl in Eb. injection Eb as <-.
      intros _. rewrite Ek. discriminate. }
  unfold upload_to_drive.
  destruct (files_list dr KML_FILENAME (Some DRIVE_FOLDER_ID)) as [|f0 fs];
    destruct grant_ok; simpl;
    (split; [reflexivity|]);
    first [ split; [left; split; reflexivity|]; split; [intros Hf; discriminate Hf|];
            intros txt gj' fc' kml' -> Hl; simpl in Eb; rewrite Hl in Eb; injection Eb as <-;
            rewrite Ec; intros Hfc; injection Hfc as <-; intros _ _;
            split; [reflexivity|]; eexists; split; [reflexivity|]; simpl; auto
          | split; [right; split; reflexivity|]; split; [intros _; reflexivity|]; intros ? ? ? ? ? ? ? ? H; discriminate H ].
Qed.

Lemma gdrive_sync_to_drive_http_witness :
  GDrive.http_status
    (fst (GDrive.sync_to_drive (fun _ => Some (PDict [("features", PList [])])) (fun _ => "<kml/>")
            "" "GET" true (Some "{}") empty_drive)) = 200%Z.
Proof.
  destruct (gdrive_sync_to_drive_http (fun _ => Some (PDict [("features", PList [])]))
              (fun _ => "<kml/>") "" true (Some "{}") empty_drive) as [_ H].
  specialize (H "GET" ltac:(discriminate)).
  destruct (GDrive.sync_to_drive _ _ _ _ _ _ _) as [resp dr'].
  destruct H as (_ & _ & _ & H). simpl.
  destruct (H "{}" (PDict [("features", PList [])]) 0 [] eq_refl eq_refl eq_refl eq_refl eq_refl)
    as [Hs _]. exact Hs.
Defined.

Lemma gdrive_process_all_in {G : Shapely} (has_xy : geom -> bool) (u : geom)
    (plants : list pyval) (f : pyval) :
  In f (GDrive.process_all has_xy u plants) ->
  exists plant, In plant plants /\ GDrive.process_plant has_xy u plant = SEmit f.
Proof.
  induction plants as [|p ps IH]; simpl; [contradiction|].
  destruct (GDrive.process_plant has_xy u p) as [| |f'] eqn:E; intros H.
  - destruct (IH H) as (pl & Hin & Hpl). eauto.
  - destruct (IH H) as (pl & Hin & Hpl). eauto.
  - destruct H as [<-|H]; [eauto|]. destruct (IH H) as (pl & Hin & Hpl). eauto.
Qed.

Lemma gdrive_process_plant_emit {G : Shapely} (has_xy : geom -> bool) (u : geom) (plant f : pyval) :
  GDrive.process_plant has_xy u plant = SEmit f ->
  exists props dz,
    is_empty dz = false
    /\ f = PDict [("type", PStr "Feature"); ("geometry", mapping dz);
                  ("properties", PDict (plant_metadata props))].
Proof.
  unfold GDrive.process_plant.
  destruct (py_get plant "properties" plant) as [[| | | | |props]|]; try discriminate.
  destruct (resolve_discharge props) as [pt| |]; try discriminate.
  destruct (is_empty pt); [discriminate|].
  destruct (negb (has_xy pt)); [discriminate|].
  destruct (danger_zone u pt) as [dz|]; [|discriminate].
  destruct (is_empty dz) eqn:Ed; [discriminate|].
  intros H. injection H as <-. exists props, dz. auto.
Qed.

Lemma gdrive_calculate_new_zones_some {G : Shapely} (has_xy : geom -> bool) regions data feats :
  GDrive.calculate_new_zones has_xy regions data = Some feats ->
  feats = [] \/ exists u plants, feats = GDrive.process_all has_xy u plants.
Proof.
  unfold GDrive.calculate_new_zones.
  destruct regions as [|r rs]; [intros H; injection H as <-; auto|].
  destruct (cascaded_union (r :: rs)) as [u|]; [|discriminate].
  destruct (features_to_process data) as [fs|]; [|intros H; injection H as <-; auto].
  destruct (py_iter fs) as [plants|]; [|discriminate].
  intros H. injection H as <-. right. eauto.
Qed.

(** Every feature of the GDrive pipeline carries the plant metadata as its
    properties, which have none of the keys its converter reads: each of its
    placemarks is named 'Unknown Location', described as compliant with no
    details, and coloured blue. *)
Theorem gdrive_pipeline_kml_defaults :
  forall (G : Shapely) has_xy regions data feats f,
    GDrive.calculate_new_zones has_xy regions data = Some feats -> In f feats ->
    exists props dz,
      f = PDict [("type", PStr "Feature"); ("geometry", mapping dz);
                 ("properties", PDict (plant_metadata props))]
      /\ is_empty dz = false
      /\ forall gd, mapping dz = PDict gd ->
         GDrive.feature_items f
         = GDrive.geometry_items (dget gd "type" PNone) (dget gd "coordinates" (PList []))
             (PStr "Unknown Location")
             (GDrive.mkDescription (PStr "Unknown Location") (compliance_text PNone)
                                   (PStr "No details available"))
             Color_blue.
Proof.
  intros G has_xy regions data feats f H Hin.
  destruct (gdrive_calculate_new_zones_some has_xy regions data feats H) as [->|(u & plants & ->)];
    [contradiction|].
  destruct (gdrive_process_all_in has_xy u plants f Hin) as (plant & _ & He).
  destruct (gdrive_process_plant_emit has_xy u plant f He) as (props & dz & Hne & ->).
  exists props, dz. split; [reflexivity|]. split; [exact Hne|].
  intros gd Hgd. unfold GDrive.feature_items. rewrite Hgd. reflexivity.
Qed.

Lemma gdrive_pipeline_kml_defaults_witness :
  exists feats, GDrive.calculate_new_zones grid_has_xy [[(100, 100)%Z]]
                  (PList [plant_at "A1" 0 0]) = Some feats /\ length feats = 1.
Proof.
  eexists. split; [reflexivity|].
  destruct (gdrive_pipeline_kml_defaults GridShapely grid_has_xy [[(100, 100)%Z]]
              (PList [plant_at "A1" 0 0]) _ _ eq_refl (or_introl eq_refl))
    as (props & dz & _ & _ & _).
  reflexivity.
Defined.

(** The analysis run of geojson2kmlGDrive.py never touches Drive; a run that
    computes no zone changes nothing; the stored hash changes only to the
    payload's digest after the non-empty Zone Collection has been written. *)
Theorem gdrive_hash_only_after_geojson :
  forall (G : Shapely) has_xy dig dumps env s,
    let '(resp, s', tr) := GDrive.check_for_changes has_xy dig dumps env s in
    st_drive s' = st_drive s /\ ~ In EvSync tr
    /\ (In (EvCalculated 0) tr -> s' = s /\ resp = ("Analysis complete. No zones saved.", 200%Z))
    /\ (st_hash s' = st_hash s
        \/ exists d feats,
             e_fetch env = Some d /\ feats <> []
             /\ st_hash s' = Some (dig d)
             /\ st_geojson s' = Some (dumps (feature_collection feats))
             /\ before EvPutGeojson EvPutHash tr
             /\ resp = ("Analysis complete. New zones saved.", 200%Z)).
Proof.
  intros G has_xy dig dumps env s. unfold GDrive.check_for_changes.
  destruct (e_fetch env) as [d|] eqn:Ef.
  2:{ split; [reflexivity|]. split; [simpl; tauto|]. split; [simpl; tauto|]. left; reflexivity. }
  cbv zeta.
  destruct (e_hash_read_ok env && _).
  { split; [reflexivity|]. split; [simpl; tauto|]. split; [simpl; tauto|]. left; reflexivity. }
  destruct (e_regions env) as [regions|].
  2:{ split; [reflexivity|]. split; [simpl; intuition discriminate|].
      split; [simpl; intuition discriminate|]. left; reflexivity. }
  destruct (GDrive.calculate_new_zones has_xy regions d) as [[|f fs]|].
  3:{ split; [reflexivity|]. split; [simpl; intuition discriminate|].
      split; [simpl; intuition discriminate|]. left; reflexivity. }
  { split; [reflexivity|]. split; [simpl; intuition discriminate|].
    split; [intros _; split; reflexivity|]. left; reflexivity. }
  destruct (e_put_geojson_ok env), (e_put_hash_ok env).
  - split; [reflexivity|]. split; [simpl; intuition discriminate|].
    split; [simpl; intuition discriminate|].
    right. exists d, (f :: fs). split; [reflexivity|]. split; [discriminate|].
    split; [reflexivity|]. split; [reflexivity|]. split; [|reflexivity].
    exists [EvLoadRegions; EvCalculated (length (f :: fs)); EvPutGeojson], [].
    split; [reflexivity|]. simpl; auto.
  - split; [reflexivity|]. split; [simpl; intuition discriminate|].
    split; [simpl; intuition discriminate|]. left; reflexivity.
  - split; [reflexivity|]. split; [simpl; intuition discriminate|].
    split; [simpl; intuition discriminate|]. left; reflexivity.
  - split; [reflexivity|]. split; [simpl; intuition discriminate|].
    split; [simpl; intuition discriminate|]. left; reflexivity.
Qed.
